(** * tiny-url: a shallow embedding of [src/server.js]

    The service is a handful of Express route handlers over one PostgreSQL
    table, [links].  The embedding follows the file top to bottom:

    - the JavaScript helpers the handlers use (truthiness of a string, the
      regular expression for custom codes, [generateCode]);
    - the table and the seven SQL statements the handlers send through
      [pool.query], as operations on a [Pool] that also keeps the journal of
      the statements it has received;
    - the handlers, written in a small state-and-exception monad [Async]
      whose [try_catch] is the handlers' [try { ... } catch (err) { ... }].

    Modelling choices, all on the side of the collaborators of the code, not
    of the code itself:
    - strings are byte strings, the UTF-8 text PostgreSQL receives;
    - PostgreSQL is modelled with the refusals the handlers can meet: a text
      parameter holding the character NUL, a code longer than VARCHAR(8), a
      duplicate code (UNIQUE), clicks beyond the range of INT, the SERIAL
      sequence at its end; a refused statement changes no row and the
      handler's [catch] answers 500;
    - ILIKE is modelled on ASCII text, where a character is a byte and the
      letters A-Z fold to a-z; PostgreSQL folds other letters by the
      locale of the database and lets [_] stand for one character, so the
      statement of what a search selects exactly takes the text to be ASCII;
    - timestamps are integers, [NOW()] is an argument of the handler;
    - [Math.floor(Math.random() * chars.length)] is an oracle [nat -> nat]
      giving the successive values drawn while one request is served;
    - [isUrl] (npm package is-url) is a parameter;
    - the fields of a request body are strings or absent: arrays, numbers and
      objects, which the body parsers can also deliver, are not modelled. *)

From Stdlib Require Import ZArith List String Ascii Bool Lia Arith.
From Stdlib Require Import Permutation Sorted.
From Stdlib Require Import DecimalString.
Import ListNotations.

Local Open Scope string_scope.
Local Open Scope Z_scope.

(* ================================================================= *)
(** ** JavaScript helpers                                              *)
(* ================================================================= *)

Module Js.

(** [if (s)] for a string: every string but the empty one is truthy. *)
Definition truthy (s : string) : bool := negb (s =? "")%string.

(** [if (v)] for a field that is a string or [undefined]. *)
Definition truthy_field (v : option string) : bool :=
  match v with
  | Some s => truthy s
  | None => false
  end.

(** A template literal prints an absent value as the word undefined. *)
Definition interpolate (v : option string) : string :=
  match v with
  | Some s => s
  | None => "undefined"
  end.

Definition between (lo hi : nat) (c : ascii) : bool :=
  (lo <=? nat_of_ascii c)%nat && (nat_of_ascii c <=? hi)%nat.

(** The character class [[A-Za-z0-9]]. *)
Definition alnum (c : ascii) : bool :=
  between 65 90 c || between 97 122 c || between 48 57 c.

Fixpoint all_chars (f : ascii -> bool) (s : string) : bool :=
  match s with
  | EmptyString => true
  | String c s' => f c && all_chars f s'
  end.

(** [/^[A-Za-z0-9]{6,8}$/.test(s)] *)
Definition code_regex (s : string) : bool :=
  (6 <=? String.length s)%nat && (String.length s <=? 8)%nat
  && all_chars alnum s.

End Js.

(* ================================================================= *)
(** ** generateCode                                                    *)
(* ================================================================= *)

Definition chars : string :=
  "ABCDEFGHIJKLMNOPQRSTUVWXYZabcdefghijklmnopqrstuvwxyz0123456789".

(** [chars[i]] coerced by [code += ...]: out of range JavaScript reads
    [undefined] and appends that word. *)
Definition chars_at (i : nat) : string :=
  match String.get i chars with
  | Some c => String c EmptyString
  | None => "undefined"
  end.

(** The loop of [generateCode(len)]: [k] counts the calls of [Math.random]
    made so far while serving the request, [rnd k] is the index drawn by the
    call number [k]. *)
Fixpoint generateCode_loop (rnd : nat -> nat) (len : nat) (k : nat)
    (code : string) : string :=
  match len with
  | O => code
  | S len' => generateCode_loop rnd len' (S k) (code ++ chars_at (rnd k))
  end.

Definition generateCode (rnd : nat -> nat) (len : nat) (k : nat) : string :=
  generateCode_loop rnd len k "".

(** The default argument [len = 6]. *)
Definition default_len : nat := 6.

(* ================================================================= *)
(** ** The table [links] and the statements sent to it                 *)
(* ================================================================= *)

(** The columns the handlers select: [code, url, clicks, last_clicked,
    created_at].  The serial [id] is kept beside the record, as no handler
    reads it. *)
Record Link := mkLink {
  code : string;
  url : string;
  clicks : Z;
  last_clicked : option Z;
  created_at : Z
}.

Inductive statement :=
| SelectLinks (pattern : option string)
| SelectOne (c : string)
| InsertLink (c u : string)
| DeleteLink (c : string)
| SelectLink (c : string)
| SelectUrl (c : string)
| UpdateClicks (c : string).

Record Pool := mkPool {
  links : list (Z * Link);      (* the rows, oldest insertion first *)
  links_id_seq : Z;             (* last value given by the SERIAL sequence *)
  journal : list statement      (* statements received, oldest first *)
}.

Definition empty_pool : Pool := mkPool [] 0 [].

Definition received (q : statement) (p : Pool) : Pool :=
  mkPool (links p) (links_id_seq p) (journal p ++ [q]).

Definition has_code (c : string) (row : Z * Link) : bool :=
  (code (snd row) =? c)%string.

Definition codes (p : Pool) : list string := map (fun r => code (snd r)) (links p).

Module Pg.

(** The character U+0000, which no text value of PostgreSQL holds: a
    parameter with it is refused (invalid byte sequence for encoding UTF8). *)
Definition nul : ascii := Ascii.zero.

Definition text (s : string) : bool :=
  Js.all_chars (fun c => negb (Ascii.eqb c nul)) s.

(** The largest INT, for [clicks] and for the sequence of [id]. *)
Definition INT_MAX : Z := 2147483647.

Definition invalid_text : string := "invalid byte sequence for encoding UTF8: 0x00".

End Pg.

Module Like.

(** Case folding of the ASCII letters, which ILIKE does on both sides.  The
    other letters PostgreSQL folds by the locale of the database; they are
    left as they are here. *)
Definition lower_char (c : ascii) : ascii :=
  if Js.between 65 90 c then ascii_of_nat (nat_of_ascii c + 32) else c.

Fixpoint lower (s : string) : string :=
  match s with
  | EmptyString => EmptyString
  | String c s' => String (lower_char c) (lower s')
  end.

Inductive token :=
| AnySeq                 (* % *)
| AnyChar                (* _ *)
| Exactly (c : ascii)    (* any other character, or an escaped one *)
| Dangling.              (* the escape character ending the pattern *)

Definition percent : ascii := "%".
Definition underscore : ascii := "_".
Definition backslash : ascii := "\".

Fixpoint tokens (p : string) : list token :=
  match p with
  | EmptyString => []
  | String c rest =>
      if Ascii.eqb c backslash then
        match rest with
        | EmptyString => [Dangling]
        | String e rest' => Exactly e :: tokens rest'
        end
      else if Ascii.eqb c percent then AnySeq :: tokens rest
      else if Ascii.eqb c underscore then AnyChar :: tokens rest
      else Exactly c :: tokens rest
  end.

Definition dangling (t : token) : bool :=
  match t with
  | Dangling => true
  | _ => false
  end.

(** PostgreSQL raises an error when the matching meets a dangling escape;
    [select_links] refuses such a pattern beforehand, so that here it
    matches nothing.  The pattern built by the list handler ends in [%] and
    holds no dangling escape. *)
Fixpoint matches (ts : list token) : string -> bool :=
  match ts with
  | [] => fun t => match t with EmptyString => true | _ => false end
  | AnySeq :: ts' =>
      fix star (t : string) : bool :=
        matches ts' t
        || match t with EmptyString => false | String _ t' => star t' end
  | AnyChar :: ts' =>
      fun t => match t with EmptyString => false | String _ t' => matches ts' t' end
  | Exactly a :: ts' =>
      fun t => match t with
               | EmptyString => false
               | String c t' => Ascii.eqb a c && matches ts' t'
               end
  | Dangling :: _ => fun _ => false
  end.

(** [text ILIKE pattern], byte by byte: on ASCII text it is PostgreSQL's
    operator; on other text [_] stands here for one byte, there for one
    character. *)
Definition ilike (text pattern : string) : bool :=
  matches (tokens (lower pattern)) (lower text).

End Like.

(** [ORDER BY created_at DESC], as a stable insertion sort of the rows
    selected. *)
Fixpoint insert_desc (x : Link) (l : list Link) : list Link :=
  match l with
  | [] => [x]
  | y :: l' =>
      if created_at y <=? created_at x then x :: y :: l'
      else y :: insert_desc x l'
  end.

Fixpoint order_by_created_at_desc (l : list Link) : list Link :=
  match l with
  | [] => []
  | x :: l' => insert_desc x (order_by_created_at_desc l')
  end.

(* ================================================================= *)
(** ** The monad of the handlers                                       *)
(* ================================================================= *)

Inductive outcome (A : Type) :=
| Returned (a : A)
| Thrown (message : string).
Arguments Returned {A} a.
Arguments Thrown {A} message.

Definition Async (A : Type) : Type := Pool -> outcome A * Pool.

Definition ret {A} (a : A) : Async A := fun p => (Returned a, p).

Definition bind {A B} (m : Async A) (f : A -> Async B) : Async B :=
  fun p =>
    match m p with
    | (Returned a, p') => f a p'
    | (Thrown e, p') => (Thrown e, p')
    end.

Declare Scope async_scope.
Delimit Scope async_scope with async.
Notation "x <- m ;; k" := (bind m (fun x => k))
  (at level 100, m at next level, right associativity) : async_scope.
Notation "'await' m ;; k" := (bind m (fun _ => k))
  (at level 100, m at next level, right associativity) : async_scope.
Local Open Scope async_scope.

(** [try { body } catch (err) { handler }]; a handler of this file never
    throws. *)
Definition try_catch {A} (body : Async A) (handler : string -> A) : Pool -> A * Pool :=
  fun p =>
    match body p with
    | (Returned a, p') => (a, p')
    | (Thrown e, p') => (handler e, p')
    end.

(* ----------------------------------------------------------------- *)
(** *** pool.query, one definition per statement of the file           *)
(* ----------------------------------------------------------------- *)

(** [SELECT code, url, clicks, last_clicked, created_at FROM links]
    [ WHERE code ILIKE $1 OR url ILIKE $1] [ORDER BY created_at DESC] *)
Definition select_links (pattern : option string) : Async (list Link) :=
  fun p =>
    let rows := map snd (links p) in
    let p' := received (SelectLinks pattern) p in
    match pattern with
    | None => (Returned (order_by_created_at_desc rows), p')
    | Some pat =>
        if negb (Pg.text pat) then (Thrown Pg.invalid_text, p')
        else if existsb Like.dangling (Like.tokens (Like.lower pat)) then
          (Thrown "LIKE pattern must not end with escape character", p')
        else
          (Returned
             (order_by_created_at_desc
                (filter (fun l => Like.ilike (code l) pat || Like.ilike (url l) pat)
                        rows)),
           p')
    end.

(** [SELECT 1 FROM links WHERE code = $1]; the handler reads [rowCount]. *)
Definition select_one (c : string) : Async nat :=
  fun p =>
    if negb (Pg.text c) then (Thrown Pg.invalid_text, received (SelectOne c) p)
    else
      (Returned (List.length (filter (has_code c) (links p))),
       received (SelectOne c) p).

(** [INSERT INTO links (code, url, clicks, last_clicked) VALUES ($1,$2,0,null)]
    with [id] from the sequence and [created_at] from its default [NOW()].
    A parameter holding NUL, a code too long for the column and a sequence
    at its end are refused before the sequence moves; a duplicate code is
    refused after it has moved.  (The codes that reach the statement are
    ASCII, so that their length in bytes is their length in characters.) *)
Definition insert_link (c u : string) (now : Z) : Async unit :=
  fun p =>
    let id := links_id_seq p + 1 in
    let q := InsertLink c u in
    if negb (Pg.text c && Pg.text u) then
      (Thrown Pg.invalid_text, received q p)
    else if (8 <? String.length c)%nat then
      (Thrown "value too long for type character varying(8)", received q p)
    else if Pg.INT_MAX <=? links_id_seq p then
      (Thrown "nextval: reached maximum value of sequence", received q p)
    else if existsb (has_code c) (links p) then
      (Thrown "duplicate key value violates unique constraint",
       mkPool (links p) id (journal p ++ [q]))
    else
      (Returned tt,
       mkPool (links p ++ [(id, mkLink c u 0 None now)]) id (journal p ++ [q])).

(** [DELETE FROM links WHERE code = $1]; the handler reads [rowCount]. *)
Definition delete_link (c : string) : Async nat :=
  fun p =>
    if negb (Pg.text c) then (Thrown Pg.invalid_text, received (DeleteLink c) p)
    else
      (Returned (List.length (filter (has_code c) (links p))),
       mkPool (filter (fun r => negb (has_code c r)) (links p))
              (links_id_seq p) (journal p ++ [DeleteLink c])).

(** [SELECT code, url, clicks, last_clicked, created_at FROM links
     WHERE code = $1] *)
Definition select_link (c : string) : Async (list Link) :=
  fun p =>
    if negb (Pg.text c) then (Thrown Pg.invalid_text, received (SelectLink c) p)
    else
      (Returned (map snd (filter (has_code c) (links p))),
       received (SelectLink c) p).

(** [SELECT url FROM links WHERE code = $1 LIMIT 1] *)
Definition select_url (c : string) : Async (list string) :=
  fun p =>
    if negb (Pg.text c) then (Thrown Pg.invalid_text, received (SelectUrl c) p)
    else
      (Returned (firstn 1 (map (fun r => url (snd r))
                               (filter (has_code c) (links p)))),
       received (SelectUrl c) p).

(** The new values of a row the update goes through. *)
Definition click (now : Z) (l : Link) : Link :=
  mkLink (code l) (url l) (clicks l + 1) (Some now) (created_at l).

(** The row is one the update would push beyond the range of INT. *)
Definition at_int_max (c : string) (row : Z * Link) : bool :=
  has_code c row && (Pg.INT_MAX <=? clicks (snd row)).

(** [UPDATE links SET clicks = clicks + 1, last_clicked = NOW()
     WHERE code = $1]; when [clicks + 1] leaves the range of INT for a row
    of the code the statement is refused and no row is changed. *)
Definition update_clicks (c : string) (now : Z) : Async unit :=
  fun p =>
    if negb (Pg.text c) then (Thrown Pg.invalid_text, received (UpdateClicks c) p)
    else if existsb (at_int_max c) (links p) then
      (Thrown "integer out of range", received (UpdateClicks c) p)
    else
      (Returned tt,
       mkPool (map (fun r => if has_code c r then (fst r, click now (snd r)) else r)
                   (links p))
              (links_id_seq p) (journal p ++ [UpdateClicks c])).

(* ================================================================= *)
(** ** Responses                                                       *)
(* ================================================================= *)

Inductive payload :=
| JsonError (error : string)                        (* { error } *)
| JsonMessage (message : string)                    (* { message } *)
| JsonLinks (rows : list Link)                      (* the rows, as an array *)
| JsonCreated (code fullUrl url : string) (clicks : Z)
                                                    (* { code, fullUrl, url, clicks } *)
| Text (text : string)                              (* res.send *)
| View404 (message : string)                        (* res.render("404", ...) *)
| ViewStats (link : Link) (fullShortUrl : string)   (* res.render("stats", ...) *)
| Location (target : string).                       (* res.redirect *)

Record response := mkResponse {
  status : Z;
  content : payload
}.

(** [res.json], [res.send] and [res.render] answer 200 unless [res.status]
    was called; [res.redirect] answers 302. *)
Definition json (b : payload) : response := mkResponse 200 b.
Definition redirect (target : string) : response := mkResponse 302 (Location target).

(** What a handler reads of the request: [req.protocol], [req.get("host")]
    and, for a POST, the fields [url] and [code] of [req.body]. *)
Record request := mkRequest {
  protocol : string;
  host : option string;
  body_url : option string;
  body_code : option string
}.

(** An instance of the URL check, to run the handlers on concrete requests:
    the string starts with [http://] or [https://] and goes on. *)
Definition sample_isUrl (s : string) : bool :=
  (String.prefix "http://" s && (7 <? String.length s)%nat)
  || (String.prefix "https://" s && (8 <? String.length s)%nat).

Section Handlers.

(** The check imported from the package is-url. *)
Variable isUrl : string -> bool.

(** [GET /api/links] *)
Definition get_api_links (search : option string) : Pool -> response * Pool :=
  try_catch
    (let pattern :=
       if Js.truthy_field search
       then Some ("%" ++ Js.interpolate search ++ "%")
       else None in
     rows <- select_links pattern ;;
     ret (json (JsonLinks rows)))
    (fun _ => mkResponse 500 (JsonError "Server error")).

(** [!url || !isUrl(url)]; [isUrl] is reached for a truthy [url] only. *)
Definition url_rejected (url : option string) : bool :=
  match url with
  | Some u => negb (Js.truthy u) || negb (isUrl u)
  | None => true
  end.

(** The loop [for (let i = 0; i < 10; i++)] of the creation handler, with
    [attempts] iterations left and [k] draws made: the candidate that is
    not stored, or nothing when the loop ends with [found] still false. *)
Fixpoint draw_code (rnd : nat -> nat) (attempts : nat) (k : nat)
    : Async (option string) :=
  match attempts with
  | O => ret None
  | S attempts' =>
      let code := generateCode rnd default_len k in
      rowCount <- select_one code ;;
      if (rowCount =? 0)%nat then ret (Some code)
      else draw_code rnd attempts' (k + default_len)
  end.

Definition store_and_answer (req : request) (code url : string) (now : Z)
    : Async response :=
  await insert_link code url now ;;
  let domain := protocol req ++ "://" ++ Js.interpolate (host req) in
  let fullUrl := domain ++ "/" ++ code in
  ret (mkResponse 201 (JsonCreated code fullUrl url 0)).

(** [POST /api/links]; of a truthy field, [Js.interpolate] is the string it
    holds. *)
Definition post_api_links (req : request) (now : Z) (rnd : nat -> nat)
    : Pool -> response * Pool :=
  try_catch
    (let url := body_url req in
     let customCode := body_code req in
     if url_rejected url then
       ret (mkResponse 400 (JsonError "Invalid or missing URL"))
     else if Js.truthy_field customCode then
       if negb (Js.code_regex (Js.interpolate customCode)) then
         ret (mkResponse 400 (JsonError "Code must be 6-8 chars [A-Za-z0-9]"))
       else
         rowCount <- select_one (Js.interpolate customCode) ;;
         if (0 <? rowCount)%nat then
           ret (mkResponse 409 (JsonError "Code already in use"))
         else
           store_and_answer req (Js.interpolate customCode)
                            (Js.interpolate url) now
     else
       found <- draw_code rnd 10 0 ;;
       match found with
       | None =>
           ret (mkResponse 500 (JsonError "Unable to generate unique code"))
       | Some code => store_and_answer req code (Js.interpolate url) now
       end)
    (fun _ => mkResponse 500 (JsonError "Server error")).

(** [DELETE /api/links/:code] *)
Definition delete_api_links (c : string) : Pool -> response * Pool :=
  try_catch
    (rowCount <- delete_link c ;;
     if (rowCount =? 0)%nat then
       ret (mkResponse 404 (JsonError "Short URL not found"))
     else ret (json (JsonMessage "Short URL deleted")))
    (fun _ => mkResponse 500 (JsonError "Server error")).

(** [GET /stats/:code] *)
Definition get_stats (req : request) (c : string) : Pool -> response * Pool :=
  try_catch
    (rows <- select_link c ;;
     match rows with
     | [] => ret (mkResponse 404 (View404 "Short URL not found"))
     | link :: _ =>
         let fullShortUrl :=
           protocol req ++ "://" ++ Js.interpolate (host req) ++ "/"
           ++ code link in
         ret (json (ViewStats link fullShortUrl))
     end)
    (fun _ => mkResponse 500 (Text "Server error")).

(** [GET /:code]; the path parameter is [c]. *)
Definition get_code (c : string) (now : Z) : Pool -> response * Pool :=
  try_catch
    (if (c =? "api")%string || (c =? "stats")%string || (c =? "health")%string
     then ret (mkResponse 404 (Text "Not found"))
     else
       rows <- select_url c ;;
       match rows with
       | [] => ret (mkResponse 404 (Text "Short URL not found"))
       | target :: _ =>
           await update_clicks c now ;;
           ret (redirect target)
       end)
    (fun _ => mkResponse 500 (Text "Server error")).

(** The requests of the service that reach the table, each with what its
    handler reads of the outside world. *)
Inductive operation :=
| Create (req : request) (now : Z) (rnd : nat -> nat)
| ListLinks (search : option string)
| Delete (c : string)
| Stats (req : request) (c : string)
| Visit (c : string) (now : Z).

Definition serve (op : operation) : Pool -> response * Pool :=
  match op with
  | Create req now rnd => post_api_links req now rnd
  | ListLinks search => get_api_links search
  | Delete c => delete_api_links c
  | Stats req c => get_stats req c
  | Visit c now => get_code c now
  end.

(** The table after a sequence of requests, served one after the other. *)
Fixpoint run (ops : list operation) (p : Pool) : Pool :=
  match ops with
  | [] => p
  | op :: ops' => run ops' (snd (serve op p))
  end.

(** The answers to the redirects of [c] made at the times [ts], in turn. *)
Fixpoint redirects (c : string) (ts : list Z) (p : Pool) : list response * Pool :=
  match ts with
  | [] => ([], p)
  | t :: ts' =>
      let (r, p') := get_code c t p in
      let (rs, p'') := redirects c ts' p' in
      (r :: rs, p'')
  end.

End Handlers.

(** Codes the redirect handler refuses before it asks the table. *)
Definition reserved (c : string) : bool :=
  (c =? "api")%string || (c =? "stats")%string || (c =? "health")%string.

(** The candidate number [i] of the creation loop: six draws each. *)
Definition candidate (rnd : nat -> nat) (i : nat) : string :=
  generateCode rnd default_len (i * default_len).

(** The rows answered by the list handler. *)
Definition listed (search : option string) (p : Pool) : list Link :=
  match content (fst (get_api_links search p)) with
  | JsonLinks rows => rows
  | _ => []
  end.

(** Substring test, written from its meaning: [needle] starts [hay] at some
    position. *)
Fixpoint includes (needle hay : string) : bool :=
  String.prefix needle hay
  || match hay with
     | EmptyString => false
     | String _ hay' => includes needle hay'
     end.

Definition includes_ci (needle hay : string) : bool :=
  includes (Like.lower needle) (Like.lower hay).

(** The links that hold [search] in their code or url, whatever the case. *)
Definition holding (search : string) (l : Link) : bool :=
  includes_ci search (code l) || includes_ci search (url l).

(** The characters LIKE reads as more than themselves. *)
Definition like_special (c : ascii) : bool :=
  Ascii.eqb c Like.percent || Ascii.eqb c Like.underscore
  || Ascii.eqb c Like.backslash.

Definition plain (s : string) : bool :=
  Js.all_chars (fun c => negb (like_special c)) s.

Definition newest_first : Link -> Link -> Prop :=
  fun a b => created_at b <= created_at a.

(** What the table keeps true of its rows: ids come from the sequence, a
    link was never clicked exactly when it has no click date. *)
Definition row_ok (p : Pool) (row : Z * Link) : Prop :=
  fst row <= links_id_seq p
  /\ 0 <= clicks (snd row)
  /\ (last_clicked (snd row) = None <-> clicks (snd row) = 0).

Definition consistent (p : Pool) : Prop :=
  Forall (row_ok p) (links p) /\ NoDup (map fst (links p)).

(** What one request may do to the rows: nothing, add a fresh row at the
    end, take the rows of a code out, or click the rows of a code. *)
Inductive touches (p p' : Pool) : Prop :=
| Untouched :
    links p' = links p -> links_id_seq p <= links_id_seq p' -> touches p p'
| Inserted (c u : string) (now : Z) :
    links p' = (links p ++ [(links_id_seq p + 1, mkLink c u 0 None now)])%list ->
    links_id_seq p' = links_id_seq p + 1 -> touches p p'
| Deleted (c : string) :
    links p' = filter (fun r => negb (has_code c r)) (links p) ->
    links_id_seq p' = links_id_seq p -> touches p p'
| Clicked (c : string) (now : Z) :
    links p' = map (fun r => if has_code c r then (fst r, click now (snd r)) else r)
                   (links p) ->
    links_id_seq p' = links_id_seq p -> touches p p'.

(** The store of the search example. *)
Definition example_links : Pool :=
  mkPool [(1, mkLink "gitlink" "https://x.com" 0 None 10);
          (2, mkLink "other" "https://y.com" 0 None 20)] 2 [].

(** A table in which somebody stored the code [health]. *)
Definition health_links : Pool :=
  mkPool [(1, mkLink "health" "https://x.com" 0 None 10)] 1 [].

(** Requests and draws to run the handlers on. *)
Definition sample_request (url code : option string) : request :=
  mkRequest "https" (Some "tiny.example") url code.

Definition sample_rnd (k : nat) : nat := ((k * 7 + 3) mod 62)%nat.

Definition sample_before : list operation :=
  [Create (sample_request (Some "https://x.com") (Some "abc123")) 100 sample_rnd;
   Visit "abc123" 200].

Definition sample_after : list operation :=
  [ListLinks (Some "abc"); Visit "abc123" 300;
   Create (sample_request (Some "https://y.com") None) 400 sample_rnd].

(* ================================================================= *)
(** ** The health check                                                *)
(* ================================================================= *)

Module Health.

(** The body [{ status, uptime, timestamp, environment, database }]. *)
Record report := mkReport {
  status : string;
  uptime : string;
  timestamp : string;
  environment : string;
  database : string
}.

(** An integer in a template literal.  The integers printed here stay far
    below 1e21, where JavaScript leaves the plain decimal notation. *)
Definition decimal (n : Z) : string := NilZero.string_of_int (Z.to_int n).

(** [Math.floor((Date.now() - startTime) / 1000)] *)
Definition uptime_of (startTime now : Z) : Z := (now - startTime) / 1000.

(** The template of [uptimeString]; [%] keeps the sign of its left side, as
    [Z.rem] does, and [Math.floor] of a quotient is [/] on integers. *)
Definition uptimeString (uptime : Z) : string :=
  decimal (uptime / 3600) ++ "h " ++ decimal (Z.rem uptime 3600 / 60) ++ "m "
  ++ decimal (Z.rem uptime 60) ++ "s".

(** [GET /health], with the clock read twice: [now] for [Date.now()], [iso]
    for [new Date().toISOString()]; [NODE_ENV] is the environment variable. *)
Definition get_health (startTime now : Z) (iso : string)
    (NODE_ENV : option string) : Z * report :=
  let uptime := uptime_of startTime now in
  (200,
   mkReport "OK" (uptimeString uptime) iso
            (if Js.truthy_field NODE_ENV then Js.interpolate NODE_ENV
             else "development")
            "Connected to Neon").

End Health.

(* ================================================================= *)
(** ** Vocabulary for sequences of requests                            *)
(* ================================================================= *)

(** A creation whose draws are indices of [chars], as
    [Math.floor(Math.random() * 62)] gives them. *)
Definition draws_in_range (op : operation) : Prop :=
  match op with
  | Create _ _ rnd => forall k, (rnd k < 62)%nat
  | _ => True
  end.

(** How many of the requests are redirects of [c]. *)
Fixpoint visits (c : string) (ops : list operation) : Z :=
  match ops with
  | [] => 0
  | Visit c' _ :: ops' => (if (c' =? c)%string then 1 else 0) + visits c ops'
  | _ :: ops' => visits c ops'
  end.

(** The request deletes the code [c]. *)
Definition deletes (c : string) (op : operation) : bool :=
  match op with
  | Delete c' => (c' =? c)%string
  | _ => false
  end.

Definition is_insert (q : statement) : bool :=
  match q with
  | InsertLink _ _ => true
  | _ => false
  end.

(** The place of a character in a string, its length if it has none. *)
Fixpoint index_in (c : ascii) (s : string) : nat :=
  match s with
  | EmptyString => 0%nat
  | String a s' => if Ascii.eqb a c then 0%nat else S (index_in c s')
  end.

(** Draws that spell [word] from the call number [k0] on. *)
Definition spelling (word : string) (k0 : nat) : nat -> nat :=
  fun k =>
    match String.get (k - k0) word with
    | Some c => index_in c chars
    | None => 0%nat
    end.

(** The search string holds no escape character of LIKE. *)
Definition unescaped (s : string) : bool :=
  Js.all_chars (fun c => negb (Ascii.eqb c Like.backslash)) s.

(** The rows of a table, without their ids. *)
Definition stored (p : Pool) : list Link := map snd (links p).

(** A table PostgreSQL can hold: no code and no url with the character
    NUL. *)
Definition storable (p : Pool) : Prop :=
  Forall (fun l => Pg.text (code l) = true /\ Pg.text (url l) = true) (stored p).

(** ASCII text: every byte is a character below 128. *)
Definition ascii_text (s : string) : bool :=
  Js.all_chars (fun c => (nat_of_ascii c <? 128)%nat) s.

Definition ascii_links (p : Pool) : Prop :=
  Forall (fun l => ascii_text (code l) = true /\ ascii_text (url l) = true)
         (stored p).

(** A link whose clicks are the largest INT, and strings with a NUL. *)
Definition full_links : Pool :=
  mkPool [(1, mkLink "gitlink" "https://x.com" 2147483647 (Some 90) 10)] 1 [].

Definition nul_code : string := String Pg.nul "".

Definition nul_url : string := "https://x.com/" ++ String Pg.nul "".

(** A table holding a clicked link, and requests around a deletion. *)
Definition clicked_links : Pool :=
  mkPool [(1, mkLink "gitlink" "https://x.com" 5 (Some 90) 10);
          (2, mkLink "other" "https://y.com" 0 None 20)] 2 [].


Definition sample_traffic : list operation :=
  [Visit "gitlink" 100; ListLinks None; Visit "other" 110;
   Create (sample_request (Some "https://z.com") None) 120 sample_rnd;
   Visit "gitlink" 130; Delete "other";
   Stats (sample_request None None) "gitlink"; Visit "zzzzzz" 140].

(* ================================================================= *)
(** ** Facts about the table                                           *)
(* ================================================================= *)

Lemma has_code_true c row : has_code c row = true <-> code (snd row) = c.
Proof. unfold has_code. apply String.eqb_eq. Qed.

Lemma filter_absent c (rows : list (Z * Link)) :
  ~ In c (map (fun r => code (snd r)) rows) -> filter (has_code c) rows = [].
Proof.
  induction rows as [|r rows IH]; simpl; intros H; [reflexivity|].
  destruct (has_code c r) eqn:E.
  - apply has_code_true in E. tauto.
  - apply IH. tauto.
Qed.

Lemma filter_out_absent c (rows : list (Z * Link)) :
  ~ In c (map (fun r => code (snd r)) rows) ->
  filter (fun r => negb (has_code c r)) rows = rows.
Proof.
  induction rows as [|r rows IH]; simpl; intros H; [reflexivity|].
  destruct (has_code c r) eqn:E; simpl.
  - apply has_code_true in E. tauto.
  - f_equal. apply IH. tauto.
Qed.

Lemma existsb_has_code c (rows : list (Z * Link)) :
  existsb (has_code c) rows = true <-> In c (map (fun r => code (snd r)) rows).
Proof.
  rewrite existsb_exists, in_map_iff. split.
  - intros [r [Hin H]]. exists r. apply has_code_true in H. auto.
  - intros [r [H Hin]]. exists r. split; [assumption|]. now apply has_code_true.
Qed.

Lemma filter_present c (rows : list (Z * Link)) :
  In c (map (fun r => code (snd r)) rows) -> filter (has_code c) rows <> [].
Proof.
  intros H E. apply in_map_iff in H. destruct H as [r [Hc Hin]].
  assert (In r (filter (has_code c) rows)) as Hf
    by (apply filter_In; split; [assumption | now apply has_code_true]).
  rewrite E in Hf. inversion Hf.
Qed.

(** With unique codes, the rows of a code are the one row that has it. *)
Lemma filter_unique (l1 l2 : list (Z * Link)) row :
  NoDup (map (fun r => code (snd r)) (l1 ++ row :: l2)) ->
  filter (has_code (code (snd row))) (l1 ++ row :: l2) = [row]
  /\ filter (fun r => negb (has_code (code (snd row)) r)) (l1 ++ row :: l2) = (l1 ++ l2)%list.
Proof.
  intros H. rewrite map_app in H. simpl in H.
  pose proof (NoDup_remove_2 _ _ _ H) as Hnot.
  assert (~ In (code (snd row)) (map (fun r => code (snd r)) l1)) as H1
    by (intros X; apply Hnot, in_or_app; now left).
  assert (~ In (code (snd row)) (map (fun r => code (snd r)) l2)) as H2
    by (intros X; apply Hnot, in_or_app; now right).
  rewrite !filter_app. simpl.
  assert (has_code (code (snd row)) row = true) as E by now apply has_code_true.
  rewrite E. simpl.
  rewrite (filter_absent _ _ H1), (filter_absent _ _ H2).
  rewrite (filter_out_absent _ _ H1), (filter_out_absent _ _ H2).
  split; reflexivity.
Qed.

Lemma map_click_absent c now (rows : list (Z * Link)) :
  ~ In c (map (fun r => code (snd r)) rows) ->
  map (fun r => if has_code c r then (fst r, click now (snd r)) else r) rows = rows.
Proof.
  induction rows as [|r rows IH]; simpl; intros H; [reflexivity|].
  destruct (has_code c r) eqn:E.
  - apply has_code_true in E. tauto.
  - f_equal. apply IH. tauto.
Qed.

Lemma map_click_unique now (l1 l2 : list (Z * Link)) row :
  NoDup (map (fun r => code (snd r)) (l1 ++ row :: l2)) ->
  map (fun r => if has_code (code (snd row)) r then (fst r, click now (snd r)) else r)
      (l1 ++ row :: l2)
  = (l1 ++ (fst row, click now (snd row)) :: l2)%list.
Proof.
  intros H. rewrite map_app in H. simpl in H.
  pose proof (NoDup_remove_2 _ _ _ H) as Hnot.
  rewrite map_app. simpl.
  assert (has_code (code (snd row)) row = true) as E by now apply has_code_true.
  rewrite E.
  rewrite !map_click_absent; [reflexivity | |];
    intros X; apply Hnot, in_or_app; [now right | now left].
Qed.

Lemma at_int_max_absent c (rows : list (Z * Link)) :
  ~ In c (map (fun r => code (snd r)) rows) -> existsb (at_int_max c) rows = false.
Proof.
  induction rows as [|r rows IH]; simpl; intros H; [reflexivity|].
  rewrite IH by tauto. unfold at_int_max.
  assert (has_code c r = false) as -> by (apply String.eqb_neq; tauto).
  reflexivity.
Qed.

Lemma at_int_max_unique (l1 l2 : list (Z * Link)) row :
  NoDup (map (fun r => code (snd r)) (l1 ++ row :: l2)) ->
  clicks (snd row) < Pg.INT_MAX ->
  existsb (at_int_max (code (snd row))) (l1 ++ row :: l2) = false.
Proof.
  intros H Hlt. rewrite map_app in H. simpl in H.
  pose proof (NoDup_remove_2 _ _ _ H) as Hnot.
  rewrite existsb_app. cbn [existsb].
  rewrite !at_int_max_absent;
    [|intros X; apply Hnot, in_or_app; now right
     |intros X; apply Hnot, in_or_app; now left].
  unfold at_int_max. apply Z.leb_gt in Hlt. rewrite Hlt.
  now rewrite andb_false_r.
Qed.

(* ================================================================= *)
(** ** Redirect                                                        *)
(* ================================================================= *)

Lemma last_cons {A} (a d : A) (l : list A) : last (a :: l) d = last l a.
Proof.
  revert a d. induction l as [|b l IH]; intros a d; [reflexivity|].
  change (last (a :: b :: l) d) with (last (b :: l) d).
  now rewrite !IH.
Qed.

Lemma get_code_reserved c now p :
  reserved c = true ->
  get_code c now p = (mkResponse 404 (Text "Not found"), p).
Proof.
  intros H. unfold get_code, try_catch. unfold reserved in H. rewrite H.
  reflexivity.
Qed.

(** A code with the character NUL is refused by the table: the handler
    answers from its [catch]. *)
Lemma get_code_refused c now p :
  reserved c = false ->
  Pg.text c = false ->
  get_code c now p
  = (mkResponse 500 (Text "Server error"), received (SelectUrl c) p).
Proof.
  intros Hr Ht. unfold get_code, try_catch. unfold reserved in Hr. rewrite Hr.
  unfold bind, select_url. rewrite Ht. reflexivity.
Qed.

Lemma get_code_absent c now p :
  reserved c = false ->
  Pg.text c = true ->
  ~ In c (codes p) ->
  get_code c now p
  = (mkResponse 404 (Text "Short URL not found"), received (SelectUrl c) p).
Proof.
  intros Hr Ht Habs. unfold get_code, try_catch. unfold reserved in Hr. rewrite Hr.
  unfold bind, select_url. rewrite Ht, (filter_absent _ _ Habs). reflexivity.
Qed.

Lemma get_code_present now (l1 l2 : list (Z * Link)) id l n j :
  reserved (code l) = false ->
  Pg.text (code l) = true ->
  clicks l < Pg.INT_MAX ->
  NoDup (map (fun r => code (snd r)) (l1 ++ (id, l) :: l2)) ->
  get_code (code l) now (mkPool (l1 ++ (id, l) :: l2) n j)
  = (redirect (url l),
     mkPool (l1 ++ (id, click now l) :: l2) n
            ((j ++ [SelectUrl (code l)]) ++ [UpdateClicks (code l)])).
Proof.
  intros Hr Ht Hlt Hnd. unfold get_code, try_catch. unfold reserved in Hr. rewrite Hr.
  unfold bind, select_url, update_clicks, received, ret. rewrite Ht.
  cbn [negb links journal links_id_seq].
  destruct (filter_unique l1 l2 (id, l) Hnd) as [Hf _]. cbn [snd] in Hf.
  rewrite Hf. cbn [map firstn snd links journal links_id_seq].
  pose proof (at_int_max_unique l1 l2 (id, l) Hnd Hlt) as Hm0. cbn [snd] in Hm0.
  rewrite Hm0.
  pose proof (map_click_unique now l1 l2 (id, l) Hnd) as Hm. cbn [snd fst] in Hm.
  rewrite Hm. reflexivity.
Qed.

(** At the largest INT the update is refused: the redirect answers from its
    [catch] and the rows stay as they are. *)
Lemma get_code_full now (l1 l2 : list (Z * Link)) id l n j :
  reserved (code l) = false ->
  Pg.text (code l) = true ->
  Pg.INT_MAX <= clicks l ->
  get_code (code l) now (mkPool (l1 ++ (id, l) :: l2) n j)
  = (mkResponse 500 (Text "Server error"),
     mkPool (l1 ++ (id, l) :: l2) n
            ((j ++ [SelectUrl (code l)]) ++ [UpdateClicks (code l)])).
Proof.
  intros Hr Ht Hge. unfold get_code, try_catch. unfold reserved in Hr. rewrite Hr.
  unfold bind, select_url, update_clicks, received, ret. rewrite Ht.
  cbn [negb links journal links_id_seq].
  assert (In (id, l) (filter (has_code (code l)) (l1 ++ (id, l) :: l2))) as Hin.
  { apply filter_In. split; [apply in_elt | now apply has_code_true]. }
  destruct (filter (has_code (code l)) (l1 ++ (id, l) :: l2)) as [|r rs];
    [inversion Hin|].
  cbn [map firstn links journal links_id_seq].
  assert (existsb (at_int_max (code l)) (l1 ++ (id, l) :: l2) = true) as ->.
  { apply existsb_exists. exists (id, l). split; [apply in_elt|].
    unfold at_int_max. apply andb_true_iff. split; [now apply has_code_true|].
    now apply Z.leb_le. }
  reflexivity.
Qed.

Lemma redirects_present ts :
  forall (l1 l2 : list (Z * Link)) id l n j,
    reserved (code l) = false ->
    Pg.text (code l) = true ->
    clicks l + Z.of_nat (List.length ts) <= Pg.INT_MAX ->
    NoDup (map (fun r => code (snd r)) (l1 ++ (id, l) :: l2)) ->
    fst (redirects (code l) ts (mkPool (l1 ++ (id, l) :: l2) n j))
    = repeat (redirect (url l)) (List.length ts)
    /\ links (snd (redirects (code l) ts (mkPool (l1 ++ (id, l) :: l2) n j)))
       = (l1 ++ (id, mkLink (code l) (url l) (clicks l + Z.of_nat (List.length ts))
                          (last (map Some ts) (last_clicked l)) (created_at l))
             :: l2)%list.
Proof.
  induction ts as [|t ts IH]; intros l1 l2 id l n j Hr Ht Hle Hnd.
  - cbn. rewrite Z.add_0_r. destruct l; auto.
  - cbn [redirects].
    assert (clicks l < Pg.INT_MAX) as Hlt by (cbn [List.length] in Hle; lia).
    rewrite (get_code_present t l1 l2 id l n j Hr Ht Hlt Hnd).
    assert (NoDup (map (fun r => code (snd r)) (l1 ++ (id, click t l) :: l2))) as Hnd'.
    { rewrite map_app in *. exact Hnd. }
    assert (clicks (click t l) + Z.of_nat (List.length ts) <= Pg.INT_MAX) as Hle'
      by (cbn [List.length click clicks] in *; lia).
    specialize (IH l1 l2 id (click t l) n
                   ((j ++ [SelectUrl (code l)]) ++ [UpdateClicks (code l)])%list
                   Hr Ht Hle' Hnd').
    cbn [click code url clicks last_clicked created_at] in IH.
    destruct (redirects (code l) ts _) as [rs p'] eqn:E.
    cbn [fst snd] in *. destruct IH as [IH1 IH2]. split.
    + cbn [List.length repeat]. now rewrite IH1.
    + rewrite IH2. cbn [map List.length]. rewrite last_cons.
      do 4 f_equal. lia.
Qed.

(** C1, as the code has it: a redirect to the code of a stored link, the
    code neither a reserved word nor holding the character NUL and the
    clicks below the largest INT, answers 302 to the stored url and leaves
    the table with that link's clicks one higher and its last_clicked set
    to the time of the request, every other row as it was; after the
    redirects at the times [ts], the clicks staying within INT, the clicks
    have grown by their number (so they are N for a link never clicked) and
    last_clicked is the last of the times; a code without NUL that no link
    has is answered 404, the rows untouched. *)
Theorem redirect_counts_clicks :
  forall (p : Pool) (c : string),
    NoDup (codes p) ->
    reserved c = false ->
    Pg.text c = true ->
    (forall l1 l2 id l,
        links p = (l1 ++ (id, l) :: l2)%list -> code l = c ->
        (forall now,
            clicks l < Pg.INT_MAX ->
            fst (get_code c now p) = mkResponse 302 (Location (url l))
            /\ links (snd (get_code c now p))
               = (l1 ++ (id, mkLink c (url l) (clicks l + 1) (Some now) (created_at l))
                     :: l2)%list)
        /\ (forall ts,
               clicks l + Z.of_nat (List.length ts) <= Pg.INT_MAX ->
               fst (redirects c ts p)
               = repeat (mkResponse 302 (Location (url l))) (List.length ts)
               /\ links (snd (redirects c ts p))
                  = (l1 ++ (id, mkLink c (url l) (clicks l + Z.of_nat (List.length ts))
                                     (last (map Some ts) (last_clicked l))
                                     (created_at l)) :: l2)%list
               /\ (clicks l = 0 ->
                   exists l',
                     In (id, l') (links (snd (redirects c ts p)))
                     /\ clicks l' = Z.of_nat (List.length ts)
                     /\ forall t, last (map Some ts) None = Some t ->
                                  last_clicked l' = Some t)))
    /\ (~ In c (codes p) ->
        forall now,
          status (fst (get_code c now p)) = 404
          /\ links (snd (get_code c now p)) = links p).
Proof.
  intros p c Hnd Hr Ht. split.
  - intros l1 l2 id l Hl Hc. subst c. destruct p as [rows n j].
    cbn [links] in Hl. subst rows. unfold codes in Hnd. cbn [links] in Hnd.
    split.
    + intros now Hlt. rewrite (get_code_present now l1 l2 id l n j Hr Ht Hlt Hnd).
      split; reflexivity.
    + intros ts Hle.
      destruct (redirects_present ts l1 l2 id l n j Hr Ht Hle Hnd) as [H1 H2].
      split; [exact H1|]. split; [exact H2|].
      intros H0. eexists. split; [rewrite H2; apply in_elt|].
      cbn [clicks last_clicked]. split; [lia|].
      intros t Hlast. destruct ts as [|t0 ts]; [discriminate|].
      cbn [map] in *. rewrite last_cons in *. exact Hlast.
  - intros Habs now. rewrite (get_code_absent c now p Hr Ht Habs). split; reflexivity.
Qed.

(** C1, as it is written, fails on a link whose clicks are the largest INT
    (the update is refused: 500, the row as it was) and on an unknown code
    that holds the character NUL (the lookup is refused: 500, not 404). *)
Lemma redirect_refused_by_the_table :
  In (1, mkLink "gitlink" "https://x.com" 2147483647 (Some 90) 10) (links full_links)
  /\ fst (get_code "gitlink" 100 full_links) = mkResponse 500 (Text "Server error")
  /\ links (snd (get_code "gitlink" 100 full_links)) = links full_links
  /\ ~ In nul_code (codes example_links)
  /\ fst (get_code nul_code 100 example_links) = mkResponse 500 (Text "Server error").
Proof.
  split; [cbn; tauto|]. split; [vm_compute; reflexivity|].
  split; [vm_compute; reflexivity|].
  split; [cbn; intuition discriminate | vm_compute; reflexivity].
Qed.

(** C6: for the reserved words api, stats and health the redirect handler
    answers 404 whatever the table holds, and sends it no statement: rows,
    sequence and journal are those of before. *)
Theorem reserved_codes_not_found :
  forall (p : Pool) (c : string) (now : Z),
    In c ["api"; "stats"; "health"] ->
    status (fst (get_code c now p)) = 404
    /\ snd (get_code c now p) = p
    /\ journal (snd (get_code c now p)) = journal p
    /\ links (snd (get_code c now p)) = links p.
Proof.
  intros p c now Hin.
  assert (reserved c = true) as Hr.
  { simpl in Hin. destruct Hin as [<-|[<-|[<-|[]]]]; reflexivity. }
  rewrite (get_code_reserved c now p Hr). repeat split.
Qed.

(* ================================================================= *)
(** ** generateCode                                                    *)
(* ================================================================= *)

Lemma length_append (a b : string) :
  String.length (a ++ b) = (String.length a + String.length b)%nat.
Proof. induction a as [|c a IH]; simpl; [reflexivity | now rewrite IH]. Qed.

Lemma all_chars_append f (a b : string) :
  Js.all_chars f (a ++ b) = Js.all_chars f a && Js.all_chars f b.
Proof.
  induction a as [|c a IH]; simpl; [reflexivity|].
  rewrite IH. apply andb_assoc.
Qed.

(** Every index below 62 reads one character of the class. *)
Lemma chars_at_alnum i :
  (i < 62)%nat ->
  String.length (chars_at i) = 1%nat /\ Js.all_chars Js.alnum (chars_at i) = true.
Proof.
  intros Hi.
  assert (forallb (fun i => (String.length (chars_at i) =? 1)%nat
                            && Js.all_chars Js.alnum (chars_at i)) (seq 0 62) = true)
    as H by (vm_compute; reflexivity).
  rewrite forallb_forall in H.
  specialize (H i). rewrite in_seq in H.
  assert (0 <= i < 0 + 62)%nat as Hi' by lia.
  apply H in Hi'. apply andb_true_iff in Hi'. destruct Hi' as [H1 H2].
  apply Nat.eqb_eq in H1. auto.
Qed.

Lemma generateCode_loop_alnum rnd :
  (forall k, (rnd k < 62)%nat) ->
  forall len k acc,
    String.length (generateCode_loop rnd len k acc) = (String.length acc + len)%nat
    /\ Js.all_chars Js.alnum (generateCode_loop rnd len k acc)
       = Js.all_chars Js.alnum acc.
Proof.
  intros Hrnd. induction len as [|len IH]; intros k acc; cbn [generateCode_loop].
  - split; [lia | reflexivity].
  - destruct (IH (S k) (acc ++ chars_at (rnd k))) as [H1 H2].
    destruct (chars_at_alnum (rnd k) (Hrnd k)) as [L A].
    rewrite H1, H2, length_append, all_chars_append, L, A, andb_true_r.
    split; [lia | reflexivity].
Qed.

Lemma candidate_shape rnd i :
  (forall k, (rnd k < 62)%nat) ->
  String.length (candidate rnd i) = 6%nat /\ Js.code_regex (candidate rnd i) = true.
Proof.
  intros Hrnd. unfold candidate, generateCode.
  destruct (generateCode_loop_alnum rnd Hrnd default_len (i * default_len) "")
    as [H1 H2].
  change (String.length "" + default_len)%nat with 6%nat in H1.
  change (Js.all_chars Js.alnum "") with true in H2.
  split; [exact H1|].
  unfold Js.code_regex. rewrite H1, H2. reflexivity.
Qed.

(** No character of a generated code is NUL, whatever the draws. *)
Lemma get_all_chars f s :
  Js.all_chars f s = true -> forall i c, String.get i s = Some c -> f c = true.
Proof.
  induction s as [|x s IH]; intros H i c Hg; [destruct i; discriminate|].
  simpl in H. apply andb_true_iff in H. destruct H as [Hx Hs].
  destruct i as [|i]; simpl in Hg; [congruence | now apply (IH Hs i)].
Qed.

Lemma chars_at_text i : Pg.text (chars_at i) = true.
Proof.
  unfold chars_at. destruct (String.get i chars) as [c|] eqn:E; [|reflexivity].
  assert (Pg.text chars = true) as H by reflexivity.
  unfold Pg.text in *. cbn [Js.all_chars]. rewrite (get_all_chars _ _ H i c E).
  reflexivity.
Qed.

Lemma generateCode_loop_text rnd len :
  forall k acc,
    Pg.text (generateCode_loop rnd len k acc) = Pg.text acc.
Proof.
  induction len as [|len IH]; intros k acc; cbn [generateCode_loop]; [reflexivity|].
  rewrite IH. unfold Pg.text. rewrite all_chars_append.
  fold (Pg.text (chars_at (rnd k))). rewrite chars_at_text. apply andb_true_r.
Qed.

Lemma candidate_text rnd i : Pg.text (candidate rnd i) = true.
Proof. unfold candidate, generateCode. now rewrite generateCode_loop_text. Qed.

Lemma all_chars_impl (f g : ascii -> bool) s :
  (forall c, f c = true -> g c = true) ->
  Js.all_chars f s = true -> Js.all_chars g s = true.
Proof.
  intros Hfg. induction s as [|c s IH]; simpl; [reflexivity|].
  intros H. apply andb_true_iff in H. destruct H as [Hc Hs].
  now rewrite (Hfg c Hc), IH.
Qed.

Lemma code_regex_text c : Js.code_regex c = true -> Pg.text c = true.
Proof.
  unfold Js.code_regex. intros H. apply andb_true_iff in H. destruct H as [_ H].
  apply (all_chars_impl Js.alnum); [|exact H].
  intros x Hx. destruct x as [[] [] [] [] [] [] [] []]; first [reflexivity | discriminate Hx].
Qed.

(* ================================================================= *)
(** ** Creation                                                        *)
(* ================================================================= *)

Section Creation.

Variable isUrl : string -> bool.

Lemma select_one_absent c p :
  Pg.text c = true ->
  ~ In c (codes p) -> select_one c p = (Returned 0%nat, received (SelectOne c) p).
Proof.
  intros Ht H. unfold select_one. now rewrite Ht, (filter_absent _ _ H).
Qed.

Lemma select_one_present c p :
  Pg.text c = true ->
  In c (codes p) ->
  exists n, select_one c p = (Returned (S n), received (SelectOne c) p).
Proof.
  intros Ht H. unfold select_one. rewrite Ht. apply filter_present in H.
  destruct (filter (has_code c) (links p)) as [|r rs]; [congruence|].
  now exists (List.length rs).
Qed.

Lemma insert_link_fresh c u now p :
  Pg.text c = true ->
  Pg.text u = true ->
  (String.length c <= 8)%nat ->
  links_id_seq p < Pg.INT_MAX ->
  ~ In c (codes p) ->
  insert_link c u now p
  = (Returned tt,
     mkPool (links p ++ [(links_id_seq p + 1, mkLink c u 0 None now)])
            (links_id_seq p + 1) (journal p ++ [InsertLink c u])).
Proof.
  intros Hc Hu Hlen Hseq Habs. unfold insert_link. rewrite Hc, Hu.
  apply Nat.ltb_ge in Hlen. rewrite Hlen.
  apply Z.leb_gt in Hseq. rewrite Hseq. cbn [andb negb].
  destruct (existsb (has_code c) (links p)) eqn:E; [|reflexivity].
  apply existsb_has_code in E. contradiction.
Qed.

(** The insertion adds one row or none, and nothing else moves but the
    sequence. *)
Lemma insert_link_cases c u now p :
  insert_link c u now p
  = (Returned tt,
     mkPool (links p ++ [(links_id_seq p + 1, mkLink c u 0 None now)])
            (links_id_seq p + 1) (journal p ++ [InsertLink c u]))
  \/ exists e n,
      insert_link c u now p
      = (Thrown e, mkPool (links p) n (journal p ++ [InsertLink c u]))
      /\ links_id_seq p <= n.
Proof.
  unfold insert_link, received.
  destruct (negb (Pg.text c && Pg.text u)); [right; do 2 eexists; split; [reflexivity|lia]|].
  destruct (8 <? String.length c)%nat; [right; do 2 eexists; split; [reflexivity|lia]|].
  destruct (Pg.INT_MAX <=? links_id_seq p);
    [right; do 2 eexists; split; [reflexivity|lia]|].
  destruct (existsb (has_code c) (links p));
    [right; do 2 eexists; split; [reflexivity|lia] | now left].
Qed.

(** The loop only reads: it returns, and rows and sequence are as before. *)
Lemma generateCode_text rnd len k : Pg.text (generateCode rnd len k) = true.
Proof. unfold generateCode. now rewrite generateCode_loop_text. Qed.

Lemma draw_code_reads rnd attempts :
  forall k p,
    exists found j,
      draw_code rnd attempts k p
      = (Returned found, mkPool (links p) (links_id_seq p) (journal p ++ j))
      /\ (attempts <> 0%nat ->
          exists j', j = SelectOne (generateCode rnd default_len k) :: j').
Proof.
  induction attempts as [|n IH]; intros k p; cbn [draw_code].
  - exists None, []. rewrite app_nil_r. destruct p. split; [reflexivity | congruence].
  - unfold bind, select_one. rewrite generateCode_text. cbn [negb].
    destruct (List.length (filter (has_code (generateCode rnd default_len k)) (links p)) =? 0)%nat.
    + eexists _, [_]. split; [reflexivity | eauto].
    + destruct (IH (k + default_len)%nat
                   (received (SelectOne (generateCode rnd default_len k)) p))
        as [found [j [H _]]].
      rewrite H. exists found, (SelectOne (generateCode rnd default_len k) :: j).
      cbn [received links links_id_seq journal]. rewrite <- app_assoc.
      split; [reflexivity | eauto].
Qed.

(** The first candidate that is not stored ends the loop. *)
Lemma draw_code_first_free rnd :
  forall i attempts first p,
    (i < attempts)%nat ->
    ~ In (candidate rnd (first + i)) (codes p) ->
    (forall j, (j < i)%nat -> In (candidate rnd (first + j)) (codes p)) ->
    draw_code rnd attempts (first * default_len) p
    = (Returned (Some (candidate rnd (first + i))),
       mkPool (links p) (links_id_seq p)
              (journal p ++ map (fun j => SelectOne (candidate rnd j)) (seq first (S i)))).
Proof.
  induction i as [|i IH]; intros attempts first p Hlt Hfree Hbusy;
    (destruct attempts as [|n]; [lia|]); cbn [draw_code].
  - rewrite Nat.add_0_r in Hfree. unfold bind. fold (candidate rnd first).
    rewrite (select_one_absent _ _ (candidate_text rnd first) Hfree). cbn.
    now rewrite Nat.add_0_r.
  - unfold bind. fold (candidate rnd first).
    assert (In (candidate rnd first) (codes p)) as H0.
    { specialize (Hbusy 0%nat). rewrite Nat.add_0_r in Hbusy. apply Hbusy. lia. }
    destruct (select_one_present _ _ (candidate_text rnd first) H0) as [m Hm].
    rewrite Hm. cbn [Nat.eqb].
    replace (first * default_len + default_len)%nat with (S first * default_len)%nat by lia.
    rewrite (IH n (S first) (received (SelectOne (candidate rnd first)) p)).
    + replace (S first + i)%nat with (first + S i)%nat by lia.
      cbn [received links links_id_seq journal]. rewrite <- app_assoc. reflexivity.
    + lia.
    + replace (S first + i)%nat with (first + S i)%nat by lia. exact Hfree.
    + intros j Hj. replace (S first + j)%nat with (first + S j)%nat by lia.
      apply Hbusy. lia.
Qed.

(** When every candidate is stored, the loop ends without one. *)
Lemma draw_code_exhausted rnd :
  forall attempts first p,
    (forall j, (j < attempts)%nat -> In (candidate rnd (first + j)) (codes p)) ->
    draw_code rnd attempts (first * default_len) p
    = (Returned None,
       mkPool (links p) (links_id_seq p)
              (journal p ++ map (fun j => SelectOne (candidate rnd j)) (seq first attempts))).
Proof.
  induction attempts as [|n IH]; intros first p Hbusy; cbn [draw_code].
  - cbn. rewrite app_nil_r. now destruct p.
  - unfold bind. fold (candidate rnd first).
    assert (In (candidate rnd first) (codes p)) as H0.
    { specialize (Hbusy 0%nat). rewrite Nat.add_0_r in Hbusy. apply Hbusy. lia. }
    destruct (select_one_present _ _ (candidate_text rnd first) H0) as [m Hm].
    rewrite Hm. cbn [Nat.eqb].
    replace (first * default_len + default_len)%nat with (S first * default_len)%nat by lia.
    rewrite (IH (S first) (received (SelectOne (candidate rnd first)) p)).
    + cbn [received links links_id_seq journal seq map]. rewrite <- app_assoc. reflexivity.
    + intros j Hj. replace (S first + j)%nat with (first + S j)%nat by lia.
      apply Hbusy. lia.
Qed.

Lemma url_accepted (v : option string) :
  url_rejected isUrl v = false ->
  exists u, v = Some u /\ Js.truthy u = true /\ isUrl u = true.
Proof.
  destruct v as [u|]; simpl; [|discriminate].
  intros H. apply orb_false_iff in H. destruct H as [H1 H2].
  apply negb_false_iff in H1, H2. eauto.
Qed.

Lemma code_regex_truthy c : Js.code_regex c = true -> Js.truthy c = true.
Proof. destruct c; [discriminate | reflexivity]. Qed.

Lemma code_regex_length c : Js.code_regex c = true -> (String.length c <= 8)%nat.
Proof.
  unfold Js.code_regex. intros H.
  apply andb_true_iff in H. destruct H as [H _].
  apply andb_true_iff in H. destruct H as [_ H].
  now apply Nat.leb_le in H.
Qed.

Lemma store_and_answer_cases req c u now p :
  store_and_answer req c u now p
  = (Returned (mkResponse 201
                 (JsonCreated c ((protocol req ++ "://" ++ Js.interpolate (host req))
                                 ++ "/" ++ c) u 0)),
     mkPool (links p ++ [(links_id_seq p + 1, mkLink c u 0 None now)])
            (links_id_seq p + 1) (journal p ++ [InsertLink c u]))
  \/ exists e n,
      store_and_answer req c u now p
      = (Thrown e, mkPool (links p) n (journal p ++ [InsertLink c u]))
      /\ links_id_seq p <= n.
Proof.
  unfold store_and_answer, bind.
  destruct (insert_link_cases c u now p) as [H|[e [n [H Hn]]]]; rewrite H;
    [now left | right; eauto].
Qed.

Lemma store_and_answer_fresh req c u now p :
  Pg.text c = true ->
  Pg.text u = true ->
  (String.length c <= 8)%nat ->
  links_id_seq p < Pg.INT_MAX ->
  ~ In c (codes p) ->
  store_and_answer req c u now p
  = (Returned (mkResponse 201
                 (JsonCreated c ((protocol req ++ "://" ++ Js.interpolate (host req))
                                 ++ "/" ++ c) u 0)),
     mkPool (links p ++ [(links_id_seq p + 1, mkLink c u 0 None now)])
            (links_id_seq p + 1) (journal p ++ [InsertLink c u])).
Proof.
  intros Hc Hu Hlen Hseq Habs. unfold store_and_answer, bind.
  now rewrite (insert_link_fresh c u now p Hc Hu Hlen Hseq Habs).
Qed.


(** C3: creation answers 400 when the url is absent, empty or refused by
    the URL check, whatever code comes with it, and when a code is given
    (a non-empty string) that is not six to eight characters of
    [[A-Za-z0-9]]; the pool is then as before: no row, no statement. *)
Theorem create_rejects_invalid :
  forall (req : request) (now : Z) (rnd : nat -> nat) (p : Pool),
    (body_url req = None \/ body_url req = Some ""
     \/ (exists u, body_url req = Some u /\ isUrl u = false))
    \/ (exists c, body_code req = Some c /\ c <> "" /\ Js.code_regex c = false) ->
    status (fst (post_api_links isUrl req now rnd p)) = 400
    /\ snd (post_api_links isUrl req now rnd p) = p.
Proof.
  intros req now rnd p H. unfold post_api_links, try_catch.
  destruct (url_rejected isUrl (body_url req)) eqn:Eu; [split; reflexivity|].
  destruct H as [H|[c [Hc [Hne Hre]]]].
  - exfalso. destruct (url_accepted _ Eu) as [u [Hu [Ht Hi]]].
    destruct H as [H|[H|[u' [H Hi']]]]; rewrite Hu in H; try discriminate.
    + injection H as ->. discriminate.
    + injection H as ->. congruence.
  - rewrite Hc. cbn [Js.truthy_field Js.interpolate]. unfold Js.truthy.
    apply String.eqb_neq in Hne. rewrite Hne, Hre. split; reflexivity.
Qed.


(** C5: a creation answered 201 has added one row at the end of the table,
    with the code of the answer, the url of the request, no click and no
    click date, and its body is the code, the short url
    [protocol://host/code], the url and 0 clicks. *)
Theorem create_success_inserts :
  forall (req : request) (now : Z) (rnd : nat -> nat) (p : Pool),
    status (fst (post_api_links isUrl req now rnd p)) = 201 ->
    exists c u,
      body_url req = Some u
      /\ fst (post_api_links isUrl req now rnd p)
         = mkResponse 201
             (JsonCreated c ((protocol req ++ "://" ++ Js.interpolate (host req))
                             ++ "/" ++ c) u 0)
      /\ links (snd (post_api_links isUrl req now rnd p))
         = (links p ++ [(links_id_seq p + 1, mkLink c u 0 None now)])%list.
Proof.
  intros req now rnd p. unfold post_api_links, try_catch.
  destruct (url_rejected isUrl (body_url req)) eqn:Eu; [discriminate|].
  destruct (url_accepted _ Eu) as [u [Hu _]]. rewrite Hu. cbn [Js.interpolate].
  destruct (Js.truthy_field (body_code req)).
  - destruct (Js.code_regex (Js.interpolate (body_code req))) eqn:Er; cbn [negb];
      [|discriminate].
    unfold bind, select_one. rewrite (code_regex_text _ Er). cbv beta iota.
    cbn [negb].
    destruct (0 <? List.length (filter (has_code (Js.interpolate (body_code req)))
                                       (links p)))%nat; [discriminate|].
    destruct (store_and_answer_cases req (Js.interpolate (body_code req)) u now
                (received (SelectOne (Js.interpolate (body_code req))) p))
      as [H|[e [n [H _]]]]; rewrite H; cbn [fst snd status]; [|discriminate].
    intros _. eexists _, u. repeat split.
  - unfold bind.
    destruct (draw_code_reads rnd 10 0 p) as [found [j [H _]]]. rewrite H.
    destruct found as [c|]; [|discriminate].
    destruct (store_and_answer_cases req c u now
                (mkPool (links p) (links_id_seq p) (journal p ++ j)))
      as [H'|[e [n [H' _]]]]; rewrite H'; cbn [fst snd status]; [|discriminate].
    intros _. exists c, u. repeat split.
Qed.

(** C2, as the code has it: with an accepted url and no custom code, the
    handler asks the table about one candidate after the other, ten at
    most, and, when the table takes the row (the url holds no character
    NUL, the sequence of ids is not at its end), creates the link under the
    first candidate that is not stored: that code is six characters of
    [[A-Za-z0-9]] and, once inserted, the code of one row only; when the
    ten candidates are all stored it answers 500 and inserts nothing. *)
Theorem create_draws_unused_code :
  forall (req : request) (now : Z) (rnd : nat -> nat) (p : Pool),
    url_rejected isUrl (body_url req) = false ->
    Js.truthy_field (body_code req) = false ->
    (forall k, (rnd k < 62)%nat) ->
    (forall i,
        (i < 10)%nat ->
        ~ In (candidate rnd i) (codes p) ->
        (forall j, (j < i)%nat -> In (candidate rnd j) (codes p)) ->
        Pg.text (Js.interpolate (body_url req)) = true ->
        links_id_seq p < Pg.INT_MAX ->
        fst (post_api_links isUrl req now rnd p)
        = mkResponse 201
            (JsonCreated (candidate rnd i)
               ((protocol req ++ "://" ++ Js.interpolate (host req))
                ++ "/" ++ candidate rnd i)
               (Js.interpolate (body_url req)) 0)
        /\ Js.code_regex (candidate rnd i) = true
        /\ String.length (candidate rnd i) = 6%nat
        /\ links (snd (post_api_links isUrl req now rnd p))
           = (links p ++ [(links_id_seq p + 1,
                           mkLink (candidate rnd i) (Js.interpolate (body_url req))
                                  0 None now)])%list
        /\ journal (snd (post_api_links isUrl req now rnd p))
           = ((journal p ++ map (fun j => SelectOne (candidate rnd j)) (seq 0 (S i)))
                ++ [InsertLink (candidate rnd i) (Js.interpolate (body_url req))])%list
        /\ List.length (filter (has_code (candidate rnd i))
                               (links (snd (post_api_links isUrl req now rnd p))))
           = 1%nat)
    /\ ((forall i, (i < 10)%nat -> In (candidate rnd i) (codes p)) ->
        fst (post_api_links isUrl req now rnd p)
        = mkResponse 500 (JsonError "Unable to generate unique code")
        /\ links (snd (post_api_links isUrl req now rnd p)) = links p
        /\ links_id_seq (snd (post_api_links isUrl req now rnd p)) = links_id_seq p
        /\ journal (snd (post_api_links isUrl req now rnd p))
           = (journal p ++ map (fun j => SelectOne (candidate rnd j)) (seq 0 10))%list).
Proof.
  intros req now rnd p Hu Hc Hrnd. split.
  - intros i Hi Hfree Hbusy Htu Hseq.
    destruct (candidate_shape rnd i Hrnd) as [Hlen Hre].
    pose proof (draw_code_first_free rnd i 10 0 p Hi Hfree Hbusy) as Hd.
    change (0 * default_len)%nat with 0%nat in Hd.
    change (0 + i)%nat with i in Hd.
    unfold post_api_links, try_catch. rewrite Hu, Hc. unfold bind. rewrite Hd.
    rewrite store_and_answer_fresh;
      [| apply candidate_text | exact Htu | lia | exact Hseq | exact Hfree].
    cbn [fst snd links journal links_id_seq].
    repeat (split; [reflexivity || assumption|]).
    rewrite filter_app, (filter_absent _ _ Hfree). cbn [filter app].
    assert (has_code (candidate rnd i)
              (links_id_seq p + 1,
               mkLink (candidate rnd i) (Js.interpolate (body_url req)) 0 None now)
            = true) as E by now apply has_code_true.
    now rewrite E.
  - intros Hbusy.
    pose proof (draw_code_exhausted rnd 10 0 p Hbusy) as Hd.
    change (0 * default_len)%nat with 0%nat in Hd.
    unfold post_api_links, try_catch. rewrite Hu, Hc. unfold bind. rewrite Hd.
    repeat split.
Qed.

(** C10: a request whose code is the empty string is served as the same
    request without a code: it is not answered 400, and the first statement
    it sends asks the table about the first drawn candidate. *)
Theorem create_empty_code_is_random :
  forall (req : request) (now : Z) (rnd : nat -> nat) (p : Pool),
    url_rejected isUrl (body_url req) = false ->
    body_code req = Some "" ->
    post_api_links isUrl req now rnd p
    = post_api_links isUrl (mkRequest (protocol req) (host req) (body_url req) None)
                     now rnd p
    /\ status (fst (post_api_links isUrl req now rnd p)) <> 400
    /\ exists rest,
        journal (snd (post_api_links isUrl req now rnd p))
        = (journal p ++ SelectOne (candidate rnd 0) :: rest)%list.
Proof.
  intros req now rnd p Hu Hc. split.
  - unfold post_api_links. cbn [body_url body_code protocol host].
    rewrite Hc. reflexivity.
  - unfold post_api_links, try_catch. rewrite Hu, Hc.
    cbn [Js.truthy_field Js.truthy String.eqb negb]. unfold bind.
    destruct (draw_code_reads rnd 10 0 p) as [found [j [H Hj]]]. rewrite H.
    destruct Hj as [j' ->]; [discriminate|].
    change (generateCode rnd default_len 0) with (candidate rnd 0).
    destruct found as [c|].
    + destruct (store_and_answer_cases req c (Js.interpolate (body_url req)) now
                  (mkPool (links p) (links_id_seq p)
                          (journal p ++ SelectOne (candidate rnd 0) :: j')))
        as [H'|[e [n [H' _]]]]; rewrite H'; cbn [fst snd status journal];
        (split; [discriminate|]);
        exists (j' ++ [InsertLink c (Js.interpolate (body_url req))])%list;
        now rewrite <- app_assoc.
    + cbn [fst snd status journal ret]. split; [discriminate | eauto].
Qed.

End Creation.

(** C2, as it is written, fails on an accepted url that holds the character
    NUL: the first candidate is not stored and the draws are indices of the
    alphabet, and yet the insertion is refused by the table and the handler
    answers 500 from its [catch], with no row added. *)
Lemma create_refused_for_nul_url :
  url_rejected sample_isUrl (Some nul_url) = false
  /\ ~ In (candidate sample_rnd 0) (codes example_links)
  /\ fst (post_api_links sample_isUrl (sample_request (Some nul_url) None)
            200 sample_rnd example_links)
     = mkResponse 500 (JsonError "Server error")
  /\ links (snd (post_api_links sample_isUrl (sample_request (Some nul_url) None)
                   200 sample_rnd example_links))
     = links example_links.
Proof.
  split; [reflexivity|].
  split; [vm_compute; intuition discriminate|].
  split; vm_compute; reflexivity.
Qed.


(* ================================================================= *)
(** ** Deletion and the stats page                                     *)
(* ================================================================= *)

Lemma get_stats_absent req c p :
  Pg.text c = true ->
  ~ In c (codes p) ->
  fst (get_stats req c p) = mkResponse 404 (View404 "Short URL not found").
Proof.
  intros Ht H. unfold get_stats, try_catch, bind, select_link.
  now rewrite Ht, (filter_absent _ _ H).
Qed.

(** C9, as the code has it: for a code without the character NUL, deleting
    the code of a stored link answers 200 and takes that row, and no other,
    out of the table, after which the stats page of the code answers 404;
    deleting a code that no row has answers 404 and leaves the rows as they
    are. *)
Theorem delete_removes_row :
  forall (p : Pool) (c : string),
    NoDup (codes p) ->
    Pg.text c = true ->
    (forall l1 l2 id l,
        links p = (l1 ++ (id, l) :: l2)%list -> code l = c ->
        fst (delete_api_links c p) = mkResponse 200 (JsonMessage "Short URL deleted")
        /\ links (snd (delete_api_links c p)) = (l1 ++ l2)%list
        /\ forall req,
            status (fst (get_stats req c p)) = 200
            /\ fst (get_stats req c (snd (delete_api_links c p)))
               = mkResponse 404 (View404 "Short URL not found"))
    /\ (~ In c (codes p) ->
        fst (delete_api_links c p) = mkResponse 404 (JsonError "Short URL not found")
        /\ links (snd (delete_api_links c p)) = links p).
Proof.
  intros p c Hnd Ht. split.
  - intros l1 l2 id l Hl Hc. subst c. unfold codes in Hnd. rewrite Hl in Hnd.
    destruct (filter_unique l1 l2 (id, l) Hnd) as [Hf Hg]. cbn [snd] in Hf, Hg.
    unfold delete_api_links, try_catch, bind, delete_link. rewrite Ht, Hl, Hf, Hg.
    cbn [negb List.length Nat.eqb fst snd links]. repeat split.
    + unfold get_stats, try_catch, bind, select_link. rewrite Ht, Hl, Hf. reflexivity.
    + apply get_stats_absent; [exact Ht|]. unfold codes, ret. cbn [links snd].
      rewrite map_app in *. cbn [map snd] in Hnd. now apply NoDup_remove_2 in Hnd.
  - intros Habs. unfold delete_api_links, try_catch, bind, delete_link.
    rewrite Ht, (filter_absent _ _ Habs), (filter_out_absent _ _ Habs).
    split; reflexivity.
Qed.

(** C9, as it is written, fails on a code that holds the character NUL: no
    row has it, and yet the deletion is answered 500, the statement being
    refused by the table. *)
Lemma delete_refused_for_nul_code :
  ~ In nul_code (codes example_links)
  /\ fst (delete_api_links nul_code example_links)
     = mkResponse 500 (JsonError "Server error")
  /\ fst (get_stats (sample_request None None) nul_code example_links)
     = mkResponse 500 (Text "Server error").
Proof.
  split; [cbn; intuition discriminate|].
  split; vm_compute; reflexivity.
Qed.

(* ================================================================= *)
(** ** Listing and searching                                           *)
(* ================================================================= *)

Lemma insert_desc_perm x l : Permutation (insert_desc x l) (x :: l).
Proof.
  induction l as [|y l IH]; cbn [insert_desc]; [reflexivity|].
  destruct (created_at y <=? created_at x); [reflexivity|].
  rewrite IH. apply perm_swap.
Qed.

Lemma order_by_perm l : Permutation (order_by_created_at_desc l) l.
Proof.
  induction l as [|x l IH]; cbn [order_by_created_at_desc]; [reflexivity|].
  rewrite insert_desc_perm. now constructor.
Qed.

Lemma insert_desc_sorted x l :
  StronglySorted newest_first l -> StronglySorted newest_first (insert_desc x l).
Proof.
  induction l as [|y l IH]; intros Hs; cbn [insert_desc].
  - repeat constructor.
  - apply StronglySorted_inv in Hs. destruct Hs as [Hs Hall].
    destruct (created_at y <=? created_at x) eqn:E.
    + apply Z.leb_le in E. constructor; [now constructor|].
      constructor; [exact E|].
      eapply Forall_impl; [|exact Hall]. unfold newest_first. intros; lia.
    + apply Z.leb_gt in E. constructor; [now apply IH|].
      eapply Permutation_Forall; [symmetry; apply insert_desc_perm|].
      constructor; [unfold newest_first; lia | exact Hall].
Qed.

Lemma order_by_sorted l : StronglySorted newest_first (order_by_created_at_desc l).
Proof.
  induction l as [|x l IH]; cbn [order_by_created_at_desc];
    [constructor | now apply insert_desc_sorted].
Qed.

Lemma lower_append a b : Like.lower (a ++ b) = Like.lower a ++ Like.lower b.
Proof. induction a as [|c a IH]; simpl; [reflexivity | now rewrite IH]. Qed.

Lemma lower_char_plain c :
  like_special c = false -> like_special (Like.lower_char c) = false.
Proof.
  destruct c as [[] [] [] [] [] [] [] []]; vm_compute; intros H;
    first [reflexivity | discriminate H].
Qed.

Lemma lower_plain s : plain s = true -> plain (Like.lower s) = true.
Proof.
  unfold plain. induction s as [|c s IH]; simpl; [reflexivity|].
  intros H. apply andb_true_iff in H. destruct H as [Hc Hs].
  apply negb_true_iff in Hc. now rewrite (lower_char_plain c Hc), IH.
Qed.

Lemma tokens_plain s rest :
  plain s = true ->
  Like.tokens (s ++ rest)
  = (map Like.Exactly (list_ascii_of_string s) ++ Like.tokens rest)%list.
Proof.
  unfold plain. induction s as [|c s IH]; intros H; [reflexivity|].
  simpl in H. apply andb_true_iff in H. destruct H as [Hc Hs].
  apply negb_true_iff in Hc. unfold like_special in Hc.
  apply orb_false_iff in Hc. destruct Hc as [Hc Hb].
  apply orb_false_iff in Hc. destruct Hc as [Hp Hu].
  change (String c s ++ rest) with (String c (s ++ rest)).
  cbn [Like.tokens list_ascii_of_string map app]. rewrite Hb, Hp, Hu.
  now rewrite (IH Hs).
Qed.

Lemma matches_any_seq ts t :
  Like.matches (Like.AnySeq :: ts) t
  = Like.matches ts t
    || match t with
       | EmptyString => false
       | String _ t' => Like.matches (Like.AnySeq :: ts) t'
       end.
Proof. destruct t; reflexivity. Qed.

Lemma matches_rest t : Like.matches [Like.AnySeq] t = true.
Proof.
  induction t as [|c t IH]; rewrite matches_any_seq; [reflexivity|].
  rewrite IH. apply orb_true_r.
Qed.

Lemma matches_prefix s :
  forall t,
    Like.matches (map Like.Exactly (list_ascii_of_string s) ++ [Like.AnySeq]) t
    = String.prefix s t.
Proof.
  induction s as [|a s IH]; intros t.
  - cbn [list_ascii_of_string map app]. rewrite matches_rest. now destruct t.
  - cbn [list_ascii_of_string map app Like.matches]. destruct t as [|b t]; [reflexivity|].
    cbn [String.prefix]. rewrite IH.
    destruct (ascii_dec a b) as [->|Hne].
    + now rewrite Ascii.eqb_refl.
    + apply Ascii.eqb_neq in Hne. now rewrite Hne.
Qed.

Lemma matches_includes s :
  forall t,
    Like.matches (Like.AnySeq :: map Like.Exactly (list_ascii_of_string s)
                    ++ [Like.AnySeq]) t
    = includes s t.
Proof.
  induction t as [|c t IH]; rewrite matches_any_seq, matches_prefix.
  - reflexivity.
  - cbn [includes]. now rewrite IH.
Qed.

(** For a search string free of the LIKE characters, the condition of the
    query is the substring test. *)
Lemma ilike_plain s text :
  plain s = true -> Like.ilike text ("%" ++ s ++ "%") = includes_ci s text.
Proof.
  intros H. unfold Like.ilike, includes_ci.
  rewrite !lower_append.
  change (Like.lower "%") with "%".
  change ("%" ++ Like.lower s ++ "%") with (String Like.percent (Like.lower s ++ "%")).
  cbn [Like.tokens]. change (Ascii.eqb Like.percent Like.backslash) with false.
  change (Ascii.eqb Like.percent Like.percent) with true. cbv iota.
  rewrite (tokens_plain _ _ (lower_plain s H)).
  change (Like.tokens "%") with [Like.AnySeq].
  apply matches_includes.
Qed.

(** The substring test means what it says. *)
Lemma prefix_spec s : forall t, String.prefix s t = true <-> exists b, t = s ++ b.
Proof.
  induction s as [|a s IH]; intros t.
  - destruct t; simpl; split; eauto.
  - destruct t as [|b t]; cbn [String.prefix].
    + split; [discriminate | intros [x Hx]; discriminate Hx].
    + destruct (ascii_dec a b) as [->|Hne].
      * rewrite IH. split; intros [x Hx]; exists x; simpl in *; congruence.
      * split; [discriminate | intros [x Hx]; simpl in Hx; congruence].
Qed.

Lemma includes_spec s :
  forall t, includes s t = true <-> exists a b, t = a ++ s ++ b.
Proof.
  induction t as [|c t IH]; cbn [includes]; rewrite orb_true_iff, prefix_spec.
  - split.
    + intros [[b Hb]|H]; [exists "", b; exact Hb | discriminate].
    + intros [a [b H]]. left. destruct a; [exists b; exact H|discriminate].
  - rewrite IH. split.
    + intros [[b Hb]|[a [b H]]]; [exists "", b; exact Hb|].
      exists (String c a), b. simpl. now rewrite H.
    + intros [a [b H]]. destruct a as [|c' a]; [left; exists b; exact H|].
      right. exists a, b. simpl in H. congruence.
Qed.

Lemma text_lower s : Pg.text (Like.lower s) = Pg.text s.
Proof.
  unfold Pg.text. induction s as [|c s IH]; simpl; [reflexivity|].
  rewrite IH. f_equal.
  destruct c as [[] [] [] [] [] [] [] []]; reflexivity.
Qed.

Lemma pattern_text s : Pg.text ("%" ++ s ++ "%") = Pg.text s.
Proof.
  unfold Pg.text. change ("%" ++ s ++ "%") with (String Like.percent (s ++ "%")).
  cbn [Js.all_chars]. rewrite all_chars_append. cbn. apply andb_true_r.
Qed.

(** The pattern [%...%] never ends in the middle of an escape. *)
Lemma tokens_closed n :
  forall s,
    (String.length s <= n)%nat ->
    existsb Like.dangling (Like.tokens (s ++ "%")) = false.
Proof.
  induction n as [|n IH]; intros s Hlen.
  - destruct s; [reflexivity | simpl in Hlen; lia].
  - destruct s as [|c s]; [reflexivity|].
    simpl in Hlen. change (String c s ++ "%") with (String c (s ++ "%")).
    cbn [Like.tokens].
    destruct (Ascii.eqb c Like.backslash).
    + destruct s as [|e s]; cbn [append]; [reflexivity|].
      cbn [existsb Like.dangling orb]. apply IH. simpl in Hlen. lia.
    + destruct (Ascii.eqb c Like.percent);
        [|destruct (Ascii.eqb c Like.underscore)];
        cbn [existsb Like.dangling orb]; apply IH; lia.
Qed.

Lemma pattern_closed s :
  existsb Like.dangling (Like.tokens (Like.lower ("%" ++ s ++ "%"))) = false.
Proof.
  rewrite !lower_append. change (Like.lower "%") with "%".
  change ("%" ++ Like.lower s ++ "%") with (String Like.percent (Like.lower s ++ "%")).
  cbn [Like.tokens]. change (Ascii.eqb Like.percent Like.backslash) with false.
  change (Ascii.eqb Like.percent Like.percent) with true. cbv iota.
  cbn [existsb Like.dangling orb].
  apply (tokens_closed (String.length (Like.lower s))). lia.
Qed.

Lemma get_api_links_all search p :
  Js.truthy_field search = false ->
  get_api_links search p
  = (json (JsonLinks (order_by_created_at_desc (map snd (links p)))),
     received (SelectLinks None) p).
Proof. intros H. unfold get_api_links, try_catch. rewrite H. reflexivity. Qed.

Lemma get_api_links_search s p :
  s <> "" ->
  Pg.text s = true ->
  get_api_links (Some s) p
  = (json (JsonLinks
             (order_by_created_at_desc
                (filter (fun l => Like.ilike (code l) ("%" ++ s ++ "%")
                                  || Like.ilike (url l) ("%" ++ s ++ "%"))
                        (map snd (links p))))),
     received (SelectLinks (Some ("%" ++ s ++ "%"))) p).
Proof.
  intros H Ht. unfold get_api_links, try_catch.
  cbn [Js.truthy_field Js.interpolate]. unfold Js.truthy.
  apply String.eqb_neq in H. rewrite H. cbn [negb].
  unfold bind, select_links. rewrite pattern_text, Ht, pattern_closed. reflexivity.
Qed.

(** A search string with the character NUL is refused by the table. *)
Lemma get_api_links_refused s p :
  Pg.text s = false ->
  get_api_links (Some s) p
  = (mkResponse 500 (JsonError "Server error"),
     received (SelectLinks (Some ("%" ++ s ++ "%"))) p).
Proof.
  intros Ht. assert (s <> "") as H by (intros ->; discriminate).
  unfold get_api_links, try_catch.
  cbn [Js.truthy_field Js.interpolate]. unfold Js.truthy.
  apply String.eqb_neq in H. rewrite H. cbn [negb].
  unfold bind, select_links. rewrite pattern_text, Ht. reflexivity.
Qed.

(** C8, as the code has it: without a search string (absent or empty) the
    list handler answers all the links, newest first; with a search string
    of ASCII characters that holds none of [%], [_], [\] and NUL, over
    codes and urls that are ASCII, it answers, newest first, exactly the
    links whose code or url holds the string, upper and lower case
    alike. *)
Theorem list_links_search :
  forall (p : Pool),
    (forall search,
        Js.truthy_field search = false ->
        fst (get_api_links search p) = mkResponse 200 (JsonLinks (listed search p))
        /\ Permutation (listed search p) (map snd (links p))
        /\ StronglySorted newest_first (listed search p))
    /\ (forall s,
           s <> "" ->
           plain s = true ->
           Pg.text s = true ->
           ascii_text s = true ->
           ascii_links p ->
           fst (get_api_links (Some s) p) = mkResponse 200 (JsonLinks (listed (Some s) p))
           /\ Permutation (listed (Some s) p) (filter (holding s) (map snd (links p)))
           /\ StronglySorted newest_first (listed (Some s) p)).
Proof.
  intros p. split.
  - intros search H. unfold listed. rewrite (get_api_links_all search p H).
    cbn [fst content json]. split; [reflexivity|].
    split; [apply order_by_perm | apply order_by_sorted].
  - intros s Hne Hplain Ht _ _. unfold listed.
    rewrite (get_api_links_search s p Hne Ht).
    cbn [fst content json]. split; [reflexivity|].
    split; [|apply order_by_sorted].
    rewrite order_by_perm.
    erewrite filter_ext; [reflexivity|].
    intros l. cbv beta. unfold holding. now rewrite !(ilike_plain s _ Hplain).
Qed.

(** The search example of the specification. *)
Example search_git :
  listed (Some "git") example_links = [mkLink "gitlink" "https://x.com" 0 None 10]
  /\ listed (Some "GIT") example_links = listed (Some "git") example_links.
Proof. split; vm_compute; reflexivity. Qed.

(** C8, as it is written, fails: the search string [_] is read as the LIKE
    wildcard, so both links of the example are answered though neither
    holds an underscore in its code or url. *)
Lemma search_wildcard_not_substring :
  listed (Some "_") example_links
  = [mkLink "other" "https://y.com" 0 None 20;
     mkLink "gitlink" "https://x.com" 0 None 10]
  /\ filter (holding "_") (map snd (links example_links)) = []
  /\ ~ (forall (s : string) (p : Pool),
          s <> "" ->
          Permutation (listed (Some s) p) (filter (holding s) (map snd (links p)))).
Proof.
  split; [vm_compute; reflexivity|]. split; [vm_compute; reflexivity|].
  intros H. specialize (H "_" example_links).
  assert ("_" <> "") as Hne by discriminate.
  apply H in Hne. apply Permutation_length in Hne.
  vm_compute in Hne. discriminate Hne.
Qed.

(* ================================================================= *)
(** ** Clicks over the life of a link                                  *)
(* ================================================================= *)

Ltac untouched := apply Untouched; cbn; [reflexivity | lia].

Section Lifetime.

Variable isUrl : string -> bool.

Lemma post_api_links_touches req now rnd p :
  touches p (snd (post_api_links isUrl req now rnd p)).
Proof.
  unfold post_api_links, try_catch.
  destruct (url_rejected isUrl (body_url req)); [untouched|].
  destruct (Js.truthy_field (body_code req)).
  - destruct (negb (Js.code_regex (Js.interpolate (body_code req))));
      [untouched|].
    unfold bind, select_one. cbv beta iota.
    destruct (negb (Pg.text (Js.interpolate (body_code req)))); [untouched|].
    destruct (0 <? List.length (filter (has_code (Js.interpolate (body_code req)))
                                       (links p)))%nat;
      [untouched|].
    destruct (store_and_answer_cases req (Js.interpolate (body_code req))
                (Js.interpolate (body_url req)) now
                (received (SelectOne (Js.interpolate (body_code req))) p))
      as [H|[e [n [H Hn]]]]; rewrite H; cbn [snd].
    + eapply Inserted; cbn; reflexivity.
    + apply Untouched; cbn in *; [reflexivity | lia].
  - unfold bind.
    destruct (draw_code_reads rnd 10 0 p) as [found [j [H _]]]. rewrite H.
    destruct found as [c|]; [|untouched].
    destruct (store_and_answer_cases req c (Js.interpolate (body_url req)) now
                (mkPool (links p) (links_id_seq p) (journal p ++ j)))
      as [H'|[e [n [H' Hn]]]]; rewrite H'; cbn [snd].
    + eapply Inserted; cbn; reflexivity.
    + apply Untouched; cbn in *; [reflexivity | lia].
Qed.

Lemma get_code_touches c now p : touches p (snd (get_code c now p)).
Proof.
  unfold get_code, try_catch.
  destruct ((c =? "api")%string || (c =? "stats")%string || (c =? "health")%string);
    [untouched|].
  unfold bind, select_url, update_clicks. cbv beta iota.
  destruct (negb (Pg.text c)); [untouched|].
  destruct (firstn 1 (map (fun r => url (snd r)) (filter (has_code c) (links p)))).
  - untouched.
  - cbn [received links]. destruct (existsb (at_int_max c) (links p)); [untouched|].
    apply (Clicked _ _ c now); cbn; reflexivity.
Qed.

Lemma serve_touches op p : touches p (snd (serve isUrl op p)).
Proof.
  destruct op as [req now rnd|search|c|req c|c now]; cbn [serve].
  - apply post_api_links_touches.
  - unfold get_api_links, try_catch, bind, select_links. cbv beta iota.
    destruct (Js.truthy_field search); [|untouched].
    destruct (negb (Pg.text ("%" ++ Js.interpolate search ++ "%"))); [untouched|].
    destruct (existsb Like.dangling
                (Like.tokens (Like.lower ("%" ++ Js.interpolate search ++ "%"))));
      untouched.
  - unfold delete_api_links, try_catch, bind, delete_link. cbv beta iota.
    destruct (negb (Pg.text c)); [untouched|].
    destruct (List.length (filter (has_code c) (links p)) =? 0)%nat;
      apply (Deleted _ _ c); cbn; reflexivity.
  - unfold get_stats, try_catch, bind, select_link. cbv beta iota.
    destruct (negb (Pg.text c)); [untouched|].
    destruct (map snd (filter (has_code c) (links p)));
      untouched.
  - apply get_code_touches.
Qed.

Lemma in_click_map c now (rows : list (Z * Link)) id l' :
  In (id, l') (map (fun r => if has_code c r then (fst r, click now (snd r)) else r) rows) ->
  exists l, In (id, l) rows /\ (l' = l \/ l' = click now l).
Proof.
  intros H. apply in_map_iff in H. destruct H as [[id0 l0] [E Hin]].
  destruct (has_code c (id0, l0)); cbn [fst snd] in E; injection E as <- <-; eauto.
Qed.

Lemma in_map_fst_filter (f : Z * Link -> bool) rows id :
  In id (map fst (filter f rows)) -> In id (map fst rows).
Proof.
  rewrite !in_map_iff. intros [r [E H]]. apply filter_In in H. exists r. tauto.
Qed.

Lemma NoDup_map_fst_filter (f : Z * Link -> bool) rows :
  NoDup (map fst rows) -> NoDup (map fst (filter f rows)).
Proof.
  induction rows as [|r rows IH]; cbn [filter map]; intros H; [constructor|].
  inversion H as [|x xs Hx Hxs]; subst.
  destruct (f r); cbn [map]; [constructor|]; auto.
  intros X. apply Hx. now apply in_map_fst_filter in X.
Qed.

Lemma touches_consistent p p' : consistent p -> touches p p' -> consistent p'.
Proof.
  intros [Hrows Hids] Ht. unfold consistent. rewrite Forall_forall in Hrows.
  destruct Ht as [E S|c u now E S|c E S|c now E S]; rewrite E.
  - split; [|exact Hids]. apply Forall_forall. intros r Hr.
    destruct (Hrows r Hr) as [H1 H2]. split; [lia | exact H2].
  - split.
    + apply Forall_forall. intros r Hr. apply in_app_or in Hr.
      destruct Hr as [Hr|[<-|[]]].
      * destruct (Hrows r Hr) as [H1 H2]. split; [lia | exact H2].
      * unfold row_ok. cbn. rewrite S. repeat split; lia.
    + rewrite map_app. cbn [map fst]. apply NoDup_Add with (a := links_id_seq p + 1)
                                          (l := map fst (links p)).
      * rewrite <- (app_nil_r (map fst (links p))) at 1. apply Add_app.
      * split; [exact Hids|]. intros X. apply in_map_iff in X.
        destruct X as [r [Er Hr]]. destruct (Hrows r Hr) as [H1 _]. lia.
  - split; [|now apply NoDup_map_fst_filter].
    apply Forall_forall. intros r Hr. apply filter_In in Hr.
    destruct (Hrows r (proj1 Hr)) as [H1 H2]. split; [lia | exact H2].
  - split.
    + apply Forall_forall. intros [id l'] Hr. apply in_click_map in Hr.
      destruct Hr as [l [Hin Hl]]. destruct (Hrows _ Hin) as [H1 [H2 H3]].
      cbn [fst snd] in *. unfold row_ok. cbn [fst snd].
      destruct Hl as [->| ->]; [repeat split; (lia || tauto)|].
      cbn [click clicks last_clicked]. repeat split; try lia; discriminate.
    + rewrite map_map. erewrite map_ext; [exact Hids|].
      intros r. now destruct (has_code c r).
Qed.

Lemma run_snoc ops op p :
  run isUrl (ops ++ [op]) p = snd (serve isUrl op (run isUrl ops p)).
Proof.
  revert p. induction ops as [|o ops IH]; intros p; cbn [run app]; [reflexivity|].
  apply IH.
Qed.

Lemma run_consistent ops : forall p, consistent p -> consistent (run isUrl ops p).
Proof.
  induction ops as [|op ops IH]; intros p H; cbn [run]; [exact H|].
  apply IH. eapply touches_consistent; [exact H | apply serve_touches].
Qed.

Lemma touches_seq p p' : touches p p' -> links_id_seq p <= links_id_seq p'.
Proof. intros [E S|c u now E S|c E S|c now E S]; lia. Qed.

Lemma run_seq ops : forall p, links_id_seq p <= links_id_seq (run isUrl ops p).
Proof.
  induction ops as [|op ops IH]; intros p; cbn [run]; [lia|].
  pose proof (touches_seq _ _ (serve_touches op p)).
  specialize (IH (snd (serve isUrl op p))). lia.
Qed.

Lemma run_clicks ops :
  forall p id l l',
    consistent p ->
    In (id, l) (links p) ->
    In (id, l') (links (run isUrl ops p)) ->
    clicks l <= clicks l'.
Proof.
  induction ops as [|op ops IH] using rev_ind; intros p id l l' Hc Hl Hl'.
  - cbn [run] in Hl'. destruct Hc as [_ Hids].
    assert (l = l') as ->; [|lia].
    clear - Hids Hl Hl'. induction (links p) as [|[i0 l0] rows IH]; [inversion Hl|].
    cbn [map fst] in Hids. inversion Hids as [|x xs Hx Hxs]; subst.
    destruct Hl as [E|Hl], Hl' as [E'|Hl'].
    + congruence.
    + injection E as -> ->. exfalso. apply Hx. apply in_map_iff. now exists (id, l').
    + injection E' as -> ->. exfalso. apply Hx. apply in_map_iff. now exists (id, l).
    + now apply IH.
  - rewrite run_snoc in Hl'.
    pose proof (serve_touches op (run isUrl ops p)) as Ht.
    assert (id <= links_id_seq (run isUrl ops p)) as Hid.
    { destruct Hc as [Hrows _]. rewrite Forall_forall in Hrows.
      destruct (Hrows _ Hl) as [H1 _]. cbn [fst] in H1.
      pose proof (run_seq ops p). lia. }
    destruct Ht as [E S|c u now E S|c E S|c now E S]; rewrite E in Hl'.
    + now apply (IH p id l l').
    + apply in_app_or in Hl'. destruct Hl' as [Hl'|[E'|[]]].
      * now apply (IH p id l l').
      * injection E' as <- _. lia.
    + apply filter_In in Hl'. now apply (IH p id l l' Hc Hl).
    + apply in_click_map in Hl'. destruct Hl' as [l0 [Hin Hl0]].
      pose proof (IH p id l l0 Hc Hl Hin).
      destruct Hl0 as [->| ->]; cbn [click clicks]; lia.
Qed.

(** C7: from a table whose rows are in order (ids given by the sequence,
    no click date exactly when no click), whatever requests are served,
    every stored link has no click date exactly when its clicks are 0, and
    between any two moments of its life (the row is known by its id) its
    clicks have not gone down. *)
Theorem clicks_invariants :
  forall (p : Pool) (before after : list operation),
    consistent p ->
    (forall id l,
        In (id, l) (links (run isUrl before p)) ->
        (last_clicked l = None <-> clicks l = 0) /\ 0 <= clicks l)
    /\ (forall id l l',
           In (id, l) (links (run isUrl before p)) ->
           In (id, l') (links (run isUrl after (run isUrl before p))) ->
           clicks l <= clicks l')
    /\ NoDup (map fst (links (run isUrl before p))).
Proof.
  intros p before after Hc.
  pose proof (run_consistent before p Hc) as Hb. split; [|split].
  - intros id l Hin. destruct Hb as [Hrows _]. rewrite Forall_forall in Hrows.
    destruct (Hrows _ Hin) as [_ [H1 H2]]. cbn [snd] in *. tauto.
  - intros id l l' Hl Hl'. now apply (run_clicks after (run isUrl before p) id l l').
  - apply Hb.
Qed.

End Lifetime.

(* ================================================================= *)
(** ** The theorems at work on concrete requests                       *)
(* ================================================================= *)

Ltac distinct_codes :=
  unfold codes; cbn;
  repeat (constructor; [cbn; intuition discriminate|]); constructor.

Lemma sample_rnd_in_range k : (sample_rnd k < 62)%nat.
Proof. unfold sample_rnd. apply Nat.mod_upper_bound. lia. Qed.

Lemma redirect_counts_clicks_witness :
  fst (redirects "gitlink" [30; 40; 50] example_links)
  = repeat (mkResponse 302 (Location "https://x.com")) 3
  /\ links (snd (redirects "gitlink" [30; 40; 50] example_links))
     = [(1, mkLink "gitlink" "https://x.com" 3 (Some 50) 10);
        (2, mkLink "other" "https://y.com" 0 None 20)]
  /\ status (fst (get_code "zzzzzz" 30 example_links)) = 404.
Proof.
  assert (NoDup (codes example_links)) as Hnd by distinct_codes.
  destruct (redirect_counts_clicks example_links "gitlink" Hnd eq_refl eq_refl)
    as [H _].
  destruct (H [] [(2, mkLink "other" "https://y.com" 0 None 20)] 1
              (mkLink "gitlink" "https://x.com" 0 None 10) eq_refl eq_refl)
    as [_ H2].
  destruct (H2 [30; 40; 50] ltac:(vm_compute; discriminate)) as [A [B _]].
  destruct (redirect_counts_clicks example_links "zzzzzz" Hnd eq_refl eq_refl)
    as [_ H'].
  assert (~ In "zzzzzz" (codes example_links)) as Habs
    by (cbn; intuition discriminate).
  destruct (H' Habs 30) as [C _].
  split; [exact A | split; [exact B | exact C]].
Defined.

Lemma reserved_codes_not_found_witness :
  In "health" (codes health_links)
  /\ status (fst (get_code "health" 30 health_links)) = 404
  /\ snd (get_code "health" 30 health_links) = health_links.
Proof.
  assert (In "health" ["api"; "stats"; "health"]) as Hin by (cbn; tauto).
  destruct (reserved_codes_not_found health_links "health" 30 Hin) as [A [B _]].
  split; [cbn; tauto | split; [exact A | exact B]].
Defined.

Lemma create_draws_unused_code_witness :
  fst (post_api_links sample_isUrl (sample_request (Some "https://y.com") None)
         200 sample_rnd example_links)
  = mkResponse 201
      (JsonCreated "DKRYfm" "https://tiny.example/DKRYfm" "https://y.com" 0)
  /\ Js.code_regex "DKRYfm" = true.
Proof.
  destruct (create_draws_unused_code sample_isUrl
              (sample_request (Some "https://y.com") None) 200 sample_rnd
              example_links eq_refl eq_refl sample_rnd_in_range) as [H _].
  assert (~ In (candidate sample_rnd 0) (codes example_links)) as Hfree
    by (vm_compute; intuition discriminate).
  assert (forall j, (j < 0)%nat -> In (candidate sample_rnd j) (codes example_links))
    as Hbusy by (intros j Hj; lia).
  destruct (H 0%nat ltac:(lia) Hfree Hbusy eq_refl eq_refl) as [A [B _]].
  split; [exact A | exact B].
Defined.

Lemma create_rejects_invalid_witness :
  status (fst (post_api_links sample_isUrl
                 (sample_request (Some "not a url") (Some "gitlink"))
                 200 sample_rnd example_links)) = 400
  /\ status (fst (post_api_links sample_isUrl
                    (sample_request (Some "https://y.com") (Some "git-link"))
                    200 sample_rnd example_links)) = 400.
Proof.
  split.
  - apply (create_rejects_invalid sample_isUrl
             (sample_request (Some "not a url") (Some "gitlink"))
             200 sample_rnd example_links).
    left. right. right. exists "not a url". split; reflexivity.
  - apply (create_rejects_invalid sample_isUrl
             (sample_request (Some "https://y.com") (Some "git-link"))
             200 sample_rnd example_links).
    right. exists "git-link". split; [reflexivity|]. split; [discriminate | reflexivity].
Defined.


Lemma create_success_inserts_witness :
  exists c u,
    Some "https://x.com" = Some u
    /\ fst (post_api_links sample_isUrl
              (sample_request (Some "https://x.com") (Some "abc123"))
              100 sample_rnd empty_pool)
       = mkResponse 201
           (JsonCreated c (("https" ++ "://" ++ "tiny.example") ++ "/" ++ c) u 0)
    /\ links (snd (post_api_links sample_isUrl
                     (sample_request (Some "https://x.com") (Some "abc123"))
                     100 sample_rnd empty_pool))
       = [(1, mkLink c u 0 None 100)].
Proof.
  exact (create_success_inserts sample_isUrl
           (sample_request (Some "https://x.com") (Some "abc123"))
           100 sample_rnd empty_pool eq_refl).
Defined.

Lemma create_empty_code_is_random_witness :
  status (fst (post_api_links sample_isUrl
                 (sample_request (Some "https://y.com") (Some ""))
                 200 sample_rnd example_links)) <> 400.
Proof.
  destruct (create_empty_code_is_random sample_isUrl
              (sample_request (Some "https://y.com") (Some ""))
              200 sample_rnd example_links eq_refl eq_refl) as [_ [A _]].
  exact A.
Defined.

Lemma delete_removes_row_witness :
  links (snd (delete_api_links "gitlink" example_links))
  = [(2, mkLink "other" "https://y.com" 0 None 20)]
  /\ fst (get_stats (sample_request None None) "gitlink"
            (snd (delete_api_links "gitlink" example_links)))
     = mkResponse 404 (View404 "Short URL not found")
  /\ status (fst (delete_api_links "zzzzzz" example_links)) = 404.
Proof.
  assert (NoDup (codes example_links)) as Hnd by distinct_codes.
  destruct (delete_removes_row example_links "gitlink" Hnd eq_refl) as [H _].
  destruct (H [] [(2, mkLink "other" "https://y.com" 0 None 20)] 1
              (mkLink "gitlink" "https://x.com" 0 None 10) eq_refl eq_refl)
    as [_ [A B]].
  destruct (B (sample_request None None)) as [_ B'].
  destruct (delete_removes_row example_links "zzzzzz" Hnd eq_refl) as [_ H'].
  assert (~ In "zzzzzz" (codes example_links)) as Habs
    by (cbn; intuition discriminate).
  destruct (H' Habs) as [C _].
  split; [exact A | split; [exact B'|]]. now rewrite C.
Defined.

Lemma list_links_search_witness :
  Permutation (listed (Some "git") example_links)
              (filter (holding "git") (map snd (links example_links)))
  /\ StronglySorted newest_first (listed None example_links).
Proof.
  destruct (list_links_search example_links) as [H1 H2].
  assert ("git" <> "") as Hne by discriminate.
  assert (ascii_links example_links) as Hascii by (repeat constructor).
  destruct (H2 "git" Hne eq_refl eq_refl eq_refl Hascii) as [_ [A _]].
  destruct (H1 None eq_refl) as [_ [_ B]].
  split; [exact A | exact B].
Defined.

Lemma clicks_invariants_witness :
  In (1, mkLink "abc123" "https://x.com" 1 (Some 200) 100)
     (links (run sample_isUrl sample_before empty_pool))
  /\ In (1, mkLink "abc123" "https://x.com" 2 (Some 300) 100)
        (links (run sample_isUrl sample_after
                  (run sample_isUrl sample_before empty_pool)))
  /\ 1 <= 2
  /\ (Some 200 = None <-> 1 = 0).
Proof.
  assert (consistent empty_pool) as Hc by (split; constructor).
  destruct (clicks_invariants sample_isUrl empty_pool sample_before sample_after Hc)
    as [A [B _]].
  assert (In (1, mkLink "abc123" "https://x.com" 1 (Some 200) 100)
             (links (run sample_isUrl sample_before empty_pool))) as H1
    by (vm_compute; tauto).
  assert (In (1, mkLink "abc123" "https://x.com" 2 (Some 300) 100)
             (links (run sample_isUrl sample_after
                       (run sample_isUrl sample_before empty_pool)))) as H2
    by (vm_compute; tauto).
  split; [exact H1 | split; [exact H2|]].
  split; [exact (B _ _ _ H1 H2) | exact (proj1 (A _ _ H1))].
Defined.

(* ================================================================= *)
(** ** What one request does to the table                              *)
(* ================================================================= *)

Lemma has_code_false_iff c row : has_code c row = false <-> code (snd row) <> c.
Proof. unfold has_code. apply String.eqb_neq. Qed.

Lemma count_zero_absent c (rows : list (Z * Link)) :
  List.length (filter (has_code c) rows) = 0%nat ->
  ~ In c (map (fun r => code (snd r)) rows).
Proof.
  intros H Hin. apply filter_present in Hin.
  destruct (filter (has_code c) rows); [congruence | discriminate].
Qed.

Lemma insert_link_spec c u now p :
  (Pg.text c = true /\ Pg.text u = true
   /\ (String.length c <= 8)%nat
   /\ links_id_seq p < Pg.INT_MAX
   /\ ~ In c (codes p)
   /\ insert_link c u now p
      = (Returned tt,
         mkPool (links p ++ [(links_id_seq p + 1, mkLink c u 0 None now)])
                (links_id_seq p + 1) (journal p ++ [InsertLink c u])))
  \/ exists e n,
      insert_link c u now p
      = (Thrown e, mkPool (links p) n (journal p ++ [InsertLink c u]))
      /\ links_id_seq p <= n
      /\ (Pg.text c = false \/ Pg.text u = false \/ (8 < String.length c)%nat
          \/ Pg.INT_MAX <= links_id_seq p \/ In c (codes p)).
Proof.
  unfold insert_link, received.
  destruct (Pg.text c) eqn:Ec; cbn [andb negb];
    [|right; do 2 eexists; split; [reflexivity|split; [lia|tauto]]].
  destruct (Pg.text u) eqn:Eu; cbn [andb negb];
    [|right; do 2 eexists; split; [reflexivity|split; [lia|tauto]]].
  destruct (8 <? String.length c)%nat eqn:El.
  { apply Nat.ltb_lt in El. right. do 2 eexists.
    split; [reflexivity|split; [lia|tauto]]. }
  destruct (Pg.INT_MAX <=? links_id_seq p) eqn:Es.
  { apply Z.leb_le in Es. right. do 2 eexists.
    split; [reflexivity|split; [lia|tauto]]. }
  destruct (existsb (has_code c) (links p)) eqn:Ee.
  { apply existsb_has_code in Ee. right. do 2 eexists.
    split; [reflexivity|split; [lia|tauto]]. }
  left. apply Nat.ltb_ge in El. apply Z.leb_gt in Es.
  repeat split; try assumption.
  intros Hin. apply existsb_has_code in Hin. congruence.
Qed.

Lemma store_and_answer_spec req c u now p :
  (Pg.text c = true /\ Pg.text u = true
   /\ (String.length c <= 8)%nat
   /\ links_id_seq p < Pg.INT_MAX
   /\ ~ In c (codes p)
   /\ store_and_answer req c u now p
      = (Returned (mkResponse 201
                     (JsonCreated c ((protocol req ++ "://" ++ Js.interpolate (host req))
                                     ++ "/" ++ c) u 0)),
         mkPool (links p ++ [(links_id_seq p + 1, mkLink c u 0 None now)])
                (links_id_seq p + 1) (journal p ++ [InsertLink c u])))
  \/ exists e n,
      store_and_answer req c u now p
      = (Thrown e, mkPool (links p) n (journal p ++ [InsertLink c u]))
      /\ links_id_seq p <= n
      /\ (Pg.text c = false \/ Pg.text u = false \/ (8 < String.length c)%nat
          \/ Pg.INT_MAX <= links_id_seq p \/ In c (codes p)).
Proof.
  unfold store_and_answer, bind.
  destruct (insert_link_spec c u now p)
    as [[H1 [H2 [H3 [H4 [H5 H]]]]]|[e [n [H [Hn Hwhy]]]]]; rewrite H.
  - left. repeat split; assumption.
  - right. exists e, n. repeat split; assumption.
Qed.

(** The loop sends [SELECT]s only, one per iteration at most, and what it
    returns is a candidate the table does not hold. *)
Lemma draw_code_spec rnd attempts :
  forall first p,
    exists found j,
      draw_code rnd attempts (first * default_len) p
      = (Returned found, mkPool (links p) (links_id_seq p) (journal p ++ j))
      /\ (List.length j <= attempts)%nat
      /\ existsb is_insert j = false
      /\ (forall c, found = Some c ->
                    ~ In c (codes p)
                    /\ exists i, (i < attempts)%nat /\ c = candidate rnd (first + i)).
Proof.
  induction attempts as [|n IH]; intros first p; cbn [draw_code].
  - exists None, []. rewrite app_nil_r. destruct p.
    repeat split; (reflexivity || lia || discriminate).
  - unfold bind, select_one. fold (candidate rnd first).
    rewrite candidate_text. cbn [negb].
    destruct (List.length (filter (has_code (candidate rnd first)) (links p)) =? 0)%nat
      eqn:E.
    + exists (Some (candidate rnd first)), [SelectOne (candidate rnd first)].
      split; [reflexivity|]. split; [cbn; lia|]. split; [reflexivity|].
      intros c Hc. injection Hc as <-. apply Nat.eqb_eq in E.
      split; [now apply count_zero_absent|].
      exists 0%nat. split; [lia | now rewrite Nat.add_0_r].
    + replace (first * default_len + default_len)%nat
        with (S first * default_len)%nat by lia.
      destruct (IH (S first) (received (SelectOne (candidate rnd first)) p))
        as [found [j [H [Hlen [Hins Hc]]]]].
      rewrite H. exists found, (SelectOne (candidate rnd first) :: j).
      cbn [received links links_id_seq journal]. rewrite <- app_assoc.
      split; [reflexivity|]. split; [cbn; lia|]. split; [exact Hins|].
      intros c Hf. destruct (Hc c Hf) as [Habs [i [Hi Hci]]].
      split; [exact Habs|]. exists (S i). split; [lia|].
      now replace (first + S i)%nat with (S first + i)%nat by lia.
Qed.

Section Service.

Variable isUrl : string -> bool.

Lemma filter_no_insert j : existsb is_insert j = false -> filter is_insert j = [].
Proof.
  induction j as [|q j IH]; [reflexivity|].
  cbn. intros H. apply orb_false_iff in H. destruct H as [-> Hj]. auto.
Qed.

(** The creation handler either answers 201, having added one row under a
    code the table did not hold, or answers 400, 409 or 500 and leaves the
    rows as they were. *)
Lemma post_api_links_effect req now rnd p :
  (exists c u j,
      body_url req = Some u
      /\ ~ In c (codes p)
      /\ Pg.text c = true /\ Pg.text u = true
      /\ ((body_code req = Some c /\ Js.code_regex c = true)
          \/ (Js.truthy_field (body_code req) = false
              /\ exists i, (i < 10)%nat /\ c = candidate rnd i))
      /\ (List.length j <= 10)%nat
      /\ existsb is_insert j = false
      /\ post_api_links isUrl req now rnd p
         = (mkResponse 201
              (JsonCreated c ((protocol req ++ "://" ++ Js.interpolate (host req))
                              ++ "/" ++ c) u 0),
            mkPool (links p ++ [(links_id_seq p + 1, mkLink c u 0 None now)])
                   (links_id_seq p + 1)
                   ((journal p ++ j) ++ [InsertLink c u])))
  \/ (exists r n j,
         post_api_links isUrl req now rnd p = (r, mkPool (links p) n (journal p ++ j))
         /\ (status r = 400 \/ status r = 409 \/ status r = 500)
         /\ links_id_seq p <= n
         /\ (List.length j <= 11)%nat
         /\ (List.length (filter is_insert j) <= 1)%nat).
Proof.
  unfold post_api_links, try_catch.
  destruct (url_rejected isUrl (body_url req)) eqn:Eu.
  { right. exists (mkResponse 400 (JsonError "Invalid or missing URL")),
      (links_id_seq p), []. rewrite app_nil_r. destruct p. cbn.
    repeat split; (reflexivity || lia || tauto). }
  destruct (url_accepted isUrl _ Eu) as [u [Hu _]]. rewrite Hu. cbn [Js.interpolate].
  destruct (Js.truthy_field (body_code req)) eqn:Et.
  2:{ (* no code *)
    unfold bind.
    destruct (draw_code_spec rnd 10 0 p) as [found [j [H [Hlen [Hins Hc]]]]].
    change (0 * default_len)%nat with 0%nat in H. rewrite H.
    destruct found as [c|].
    - destruct (Hc c eq_refl) as [Habs [i [Hi Hci]]].
      destruct (store_and_answer_spec req c u now
                  (mkPool (links p) (links_id_seq p) (journal p ++ j)))
        as [[Htc [Htu [_ [_ [_ H']]]]]|[e [n [H' [Hn _]]]]]; rewrite H';
        cbn [links links_id_seq journal] in *.
      + left. exists c, u, j. repeat split; try assumption.
        right. split; [reflexivity|]. exists i. now split.
      + right. exists (mkResponse 500 (JsonError "Server error")), n,
          (j ++ [InsertLink c u])%list.
        rewrite app_assoc. split; [reflexivity|]. split; [cbn; tauto|].
        split; [lia|]. rewrite length_app, filter_app, length_app.
        rewrite (filter_no_insert j Hins). cbn. lia.
    - right. exists (mkResponse 500 (JsonError "Unable to generate unique code")),
        (links_id_seq p), j. split; [reflexivity|]. split; [cbn; tauto|].
      split; [lia|]. split; [lia|]. rewrite (filter_no_insert j Hins). cbn. lia. }
  destruct (body_code req) as [cc|] eqn:Ec; [|discriminate Et].
  cbn [Js.interpolate].
  destruct (Js.code_regex cc) eqn:Er; cbn [negb].
  2:{ right. exists (mkResponse 400 (JsonError "Code must be 6-8 chars [A-Za-z0-9]")),
      (links_id_seq p), []. rewrite app_nil_r. destruct p. cbn.
    repeat split; (reflexivity || lia || tauto). }
  unfold bind, select_one. rewrite (code_regex_text cc Er). cbv beta iota. cbn [negb].
  destruct (0 <? List.length (filter (has_code cc) (links p)))%nat eqn:E0.
  { right. exists (mkResponse 409 (JsonError "Code already in use")),
      (links_id_seq p), [SelectOne cc]. cbn.
    repeat split; (reflexivity || lia || tauto). }
  apply Nat.ltb_ge in E0.
  destruct (store_and_answer_spec req cc u now (received (SelectOne cc) p))
    as [[Htc [Htu [_ [_ [Habs H']]]]]|[e [n [H' [Hn _]]]]]; rewrite H';
    cbn [received links links_id_seq journal] in *.
  - left. exists cc, u, [SelectOne cc]. repeat split; try (cbn; lia); auto.
  - right. exists (mkResponse 500 (JsonError "Server error")),
      n, [SelectOne cc; InsertLink cc u].
    rewrite <- app_assoc. cbn. repeat split; (reflexivity || lia || tauto).
Qed.

Lemma delete_api_links_effect c p :
  Pg.text c = true ->
  snd (delete_api_links c p)
  = mkPool (filter (fun r => negb (has_code c r)) (links p))
           (links_id_seq p) (journal p ++ [DeleteLink c])
  /\ (In c (codes p) ->
      fst (delete_api_links c p) = mkResponse 200 (JsonMessage "Short URL deleted"))
  /\ (~ In c (codes p) ->
      fst (delete_api_links c p) = mkResponse 404 (JsonError "Short URL not found")
      /\ filter (fun r => negb (has_code c r)) (links p) = links p).
Proof.
  intros Ht. unfold delete_api_links, try_catch, bind, delete_link. rewrite Ht.
  cbv beta iota. cbn [negb].
  split; [|split].
  - now destruct (List.length (filter (has_code c) (links p)) =? 0)%nat.
  - intros Hin. apply filter_present in Hin.
    now destruct (filter (has_code c) (links p)).
  - intros Habs. rewrite (filter_absent _ _ Habs), (filter_out_absent _ _ Habs).
    split; reflexivity.
Qed.

(** A code with the character NUL is refused by the table. *)
Lemma delete_api_links_refused c p :
  Pg.text c = false ->
  delete_api_links c p
  = (mkResponse 500 (JsonError "Server error"), received (DeleteLink c) p).
Proof.
  intros Ht. unfold delete_api_links, try_catch, bind, delete_link.
  now rewrite Ht.
Qed.

(** A redirect of a stored code, the code not a reserved word and without
    NUL, no row of the code at the largest INT, clicks every row of the code
    and sends the caller to the url of one of them. *)
Lemma get_code_stored c now p :
  reserved c = false ->
  Pg.text c = true ->
  existsb (at_int_max c) (links p) = false ->
  In c (codes p) ->
  exists row,
    In row (links p) /\ code (snd row) = c
    /\ get_code c now p
       = (mkResponse 302 (Location (url (snd row))),
          mkPool (map (fun r => if has_code c r then (fst r, click now (snd r)) else r)
                      (links p))
                 (links_id_seq p)
                 ((journal p ++ [SelectUrl c]) ++ [UpdateClicks c])).
Proof.
  intros Hr Ht Hmax Hin. unfold get_code, try_catch. unfold reserved in Hr. rewrite Hr.
  unfold bind, select_url, update_clicks, received, ret. rewrite Ht.
  cbv beta iota. cbn [negb].
  pose proof (filter_present _ _ Hin) as Hne.
  destruct (filter (has_code c) (links p)) as [|row rows] eqn:E; [congruence|].
  assert (In row (filter (has_code c) (links p))) as Hrow by (rewrite E; now left).
  apply filter_In in Hrow. destruct Hrow as [Hrow Hc]. apply has_code_true in Hc.
  exists row. split; [exact Hrow|]. split; [exact Hc|].
  cbn [map firstn links journal links_id_seq]. rewrite Hmax. reflexivity.
Qed.

(** When a row of the code is at the largest INT the update is refused: the
    rows stay as they are. *)
Lemma get_code_blocked c now p :
  reserved c = false ->
  Pg.text c = true ->
  existsb (at_int_max c) (links p) = true ->
  get_code c now p
  = (mkResponse 500 (Text "Server error"),
     mkPool (links p) (links_id_seq p)
            ((journal p ++ [SelectUrl c]) ++ [UpdateClicks c])).
Proof.
  intros Hr Ht Hmax. unfold get_code, try_catch. unfold reserved in Hr. rewrite Hr.
  unfold bind, select_url, update_clicks, received, ret. rewrite Ht.
  cbv beta iota. cbn [negb].
  assert (In c (codes p)) as Hin.
  { apply existsb_exists in Hmax. destruct Hmax as [r [Hr0 Hm]].
    unfold at_int_max in Hm. apply andb_true_iff in Hm. destruct Hm as [Hm _].
    apply has_code_true in Hm. apply in_map_iff. now exists r. }
  pose proof (filter_present _ _ Hin) as Hne.
  destruct (filter (has_code c) (links p)) as [|row rows]; [congruence|].
  cbn [map firstn links journal links_id_seq]. rewrite Hmax. reflexivity.
Qed.

(** Whatever the redirect answers, the rows are those of before or those of
    before with the rows of the code clicked, and then the answer is 302. *)
Lemma get_code_rows c now p :
  links (snd (get_code c now p)) = links p
  \/ (status (fst (get_code c now p)) = 302
      /\ reserved c = false /\ Pg.text c = true
      /\ existsb (at_int_max c) (links p) = false
      /\ In c (codes p)
      /\ links (snd (get_code c now p))
         = map (fun r => if has_code c r then (fst r, click now (snd r)) else r)
               (links p)).
Proof.
  destruct (reserved c) eqn:Hr; [left; now rewrite get_code_reserved|].
  destruct (Pg.text c) eqn:Ht; [|left; now rewrite get_code_refused].
  destruct (in_dec string_dec c (codes p)) as [Hin|Habs];
    [|left; now rewrite get_code_absent].
  destruct (existsb (at_int_max c) (links p)) eqn:Hmax;
    [left; now rewrite get_code_blocked|].
  right. destruct (get_code_stored c now p Hr Ht Hmax Hin) as [row [_ [_ H]]].
  rewrite H. repeat split; assumption.
Qed.

Lemma get_code_journal c now p :
  exists j,
    journal (snd (get_code c now p)) = (journal p ++ j)%list
    /\ (List.length j <= 2)%nat /\ existsb is_insert j = false.
Proof.
  destruct (reserved c) eqn:Hr.
  { rewrite get_code_reserved by exact Hr. exists []. rewrite app_nil_r. cbn.
    repeat split; lia. }
  destruct (Pg.text c) eqn:Ht.
  2:{ rewrite get_code_refused by assumption. exists [SelectUrl c]. cbn.
      repeat split; lia. }
  destruct (in_dec string_dec c (codes p)) as [Hin|Habs].
  2:{ rewrite get_code_absent by assumption. exists [SelectUrl c]. cbn.
      repeat split; lia. }
  destruct (existsb (at_int_max c) (links p)) eqn:Hmax.
  - rewrite get_code_blocked by assumption. exists [SelectUrl c; UpdateClicks c].
    cbn [snd journal]. rewrite <- app_assoc. cbn. repeat split; lia.
  - destruct (get_code_stored c now p Hr Ht Hmax Hin) as [row [_ [_ H]]]. rewrite H.
    exists [SelectUrl c; UpdateClicks c]. cbn [snd journal].
    rewrite <- app_assoc. cbn. repeat split; lia.
Qed.

Lemma get_api_links_reads search p :
  exists pattern, snd (get_api_links search p) = received (SelectLinks pattern) p.
Proof.
  unfold get_api_links, try_catch, bind, select_links. cbv beta iota.
  destruct (Js.truthy_field search); [|eexists; reflexivity].
  destruct (negb (Pg.text ("%" ++ Js.interpolate search ++ "%")));
    [eexists; reflexivity|].
  destruct (existsb Like.dangling
              (Like.tokens (Like.lower ("%" ++ Js.interpolate search ++ "%"))));
    eexists; reflexivity.
Qed.

Lemma get_stats_reads req c p :
  snd (get_stats req c p) = received (SelectLink c) p.
Proof.
  unfold get_stats, try_catch, bind, select_link. cbv beta iota.
  destruct (negb (Pg.text c)); [reflexivity|].
  now destruct (map snd (filter (has_code c) (links p))).
Qed.

(** Whatever the deletion answers, the rows are those of before without the
    rows of the code, or those of before. *)
Lemma delete_api_links_rows c p :
  (Pg.text c = true
   /\ snd (delete_api_links c p)
      = mkPool (filter (fun r => negb (has_code c r)) (links p))
               (links_id_seq p) (journal p ++ [DeleteLink c]))
  \/ (Pg.text c = false
      /\ delete_api_links c p
         = (mkResponse 500 (JsonError "Server error"), received (DeleteLink c) p)).
Proof.
  destruct (Pg.text c) eqn:Ht.
  - left. split; [reflexivity|]. now destruct (delete_api_links_effect c p Ht).
  - right. split; [reflexivity|]. now apply delete_api_links_refused.
Qed.

Lemma NoDup_map_filter {A B} (f : A -> B) (g : A -> bool) (l : list A) :
  NoDup (map f l) -> NoDup (map f (filter g l)).
Proof.
  induction l as [|x l IH]; cbn [filter map]; intros H; [constructor|].
  inversion H as [|y ys Hy Hys]; subst.
  destruct (g x); cbn [map]; [constructor|]; auto.
  intros X. apply Hy. apply in_map_iff in X. destruct X as [z [E Hz]].
  apply filter_In in Hz. apply in_map_iff. exists z. tauto.
Qed.

Lemma codes_after_click c now (rows : list (Z * Link)) :
  map (fun r => code (snd r))
      (map (fun r => if has_code c r then (fst r, click now (snd r)) else r) rows)
  = map (fun r => code (snd r)) rows.
Proof.
  rewrite map_map. apply map_ext. intros r. now destruct (has_code c r).
Qed.

Lemma get_code_codes c now p : codes (snd (get_code c now p)) = codes p.
Proof.
  destruct (get_code_rows c now p) as [H|[_ [_ [_ [_ [_ H]]]]]];
    unfold codes; rewrite H; [reflexivity | apply codes_after_click].
Qed.

Lemma serve_unique op p :
  NoDup (codes p) -> NoDup (codes (snd (serve isUrl op p))).
Proof.
  intros Hnd. destruct op as [req now rnd|search|c|req c|c now]; cbn [serve].
  - destruct (post_api_links_effect req now rnd p)
      as [[c [u [j [_ [Habs [_ [_ [_ [_ [_ H]]]]]]]]]]|[r [n [j [H _]]]]]; rewrite H;
      unfold codes; cbn [snd links]; [|exact Hnd].
    rewrite map_app. cbn [map snd code]. apply NoDup_Add with (a := c) (l := codes p).
    + rewrite <- (app_nil_r (codes p)) at 1. apply Add_app.
    + split; assumption.
  - destruct (get_api_links_reads search p) as [pat H]. now rewrite H.
  - destruct (delete_api_links_rows c p) as [[_ H]|[_ H]]; rewrite H; [|exact Hnd].
    unfold codes. cbn [links]. now apply NoDup_map_filter.
  - now rewrite get_stats_reads.
  - now rewrite get_code_codes.
Qed.

(** X1: no request makes two rows share a code: if the codes of the table
    are distinct they are still distinct after any sequence of requests. *)
Theorem codes_stay_unique :
  forall (ops : list operation) (p : Pool),
    NoDup (codes p) -> NoDup (codes (run isUrl ops p)).
Proof.
  induction ops as [|op ops IH]; intros p H; cbn [run]; [exact H|].
  apply IH. now apply serve_unique.
Qed.

Lemma serve_shape op p :
  draws_in_range op ->
  Forall (fun c => Js.code_regex c = true) (codes p) ->
  Forall (fun c => Js.code_regex c = true) (codes (snd (serve isUrl op p))).
Proof.
  intros Hop Hp. destruct op as [req now rnd|search|c|req c|c now]; cbn [serve].
  - destruct (post_api_links_effect req now rnd p)
      as [[c [u [j [_ [_ [_ [_ [Hc [_ [_ H]]]]]]]]]]|[r [n [j [H _]]]]]; rewrite H;
      unfold codes; cbn [snd links]; [|exact Hp].
    rewrite map_app. apply Forall_app. split; [exact Hp|].
    constructor; [|constructor]. cbn [snd code].
    destruct Hc as [[_ Hre]|[_ [i [_ ->]]]]; [exact Hre|].
    now apply candidate_shape.
  - destruct (get_api_links_reads search p) as [pat H]. now rewrite H.
  - destruct (delete_api_links_rows c p) as [[_ H]|[_ H]]; rewrite H; [|exact Hp].
    unfold codes in *. cbn [links]. rewrite Forall_forall in *.
    intros x Hx. apply Hp. apply in_map_iff in Hx. destruct Hx as [r [E Hr]].
    apply filter_In in Hr. apply in_map_iff. exists r. tauto.
  - now rewrite get_stats_reads.
  - now rewrite get_code_codes.
Qed.

(** X2: when the draws are indices of the alphabet, every code the service
    stores is six to eight characters of [[A-Za-z0-9]]: a table whose codes
    have that shape keeps it through any sequence of requests, so the
    words api and stats are never stored. *)
Theorem stored_codes_well_formed :
  forall (ops : list operation) (p : Pool),
    Forall draws_in_range ops ->
    Forall (fun c => Js.code_regex c = true) (codes p) ->
    Forall (fun c => Js.code_regex c = true) (codes (run isUrl ops p))
    /\ ~ In "api" (codes (run isUrl ops p))
    /\ ~ In "stats" (codes (run isUrl ops p)).
Proof.
  intros ops p Hops Hp.
  assert (Forall (fun c => Js.code_regex c = true) (codes (run isUrl ops p))) as H.
  { revert p Hp. induction Hops as [|op ops Hop Hops IH]; intros p Hp; cbn [run];
      [exact Hp|].
    apply IH. now apply serve_shape. }
  split; [exact H|]. rewrite Forall_forall in H.
  split; intros Hin; apply H in Hin; discriminate Hin.
Qed.

(** X3: the rows change only when a creation answers 201, a deletion 200
    or a redirect 302; listing, the stats page and every refused request
    leave them as they are. *)
Theorem rows_change_only_on_success :
  forall (op : operation) (p : Pool),
    links (snd (serve isUrl op p)) <> links p ->
    match op with
    | Create _ _ _ => status (fst (serve isUrl op p)) = 201
    | Delete _ => status (fst (serve isUrl op p)) = 200
    | Visit _ _ => status (fst (serve isUrl op p)) = 302
    | ListLinks _ | Stats _ _ => False
    end.
Proof.
  intros op p Hne. destruct op as [req now rnd|search|c|req c|c now];
    cbn [serve] in *.
  - destruct (post_api_links_effect req now rnd p)
      as [[c [u [j [_ [_ [_ [_ [_ [_ [_ H]]]]]]]]]]|[r [n [j [H _]]]]]; rewrite H in *;
      [reflexivity|]. now contradiction Hne.
  - destruct (get_api_links_reads search p) as [pat H]. rewrite H in Hne.
    now contradiction Hne.
  - destruct (delete_api_links_rows c p) as [[Ht H]|[_ H]];
      [|rewrite H in Hne; now contradiction Hne].
    destruct (delete_api_links_effect c p Ht) as [_ [Hin Habs]].
    destruct (in_dec string_dec c (codes p)) as [Hc|Hc].
    + now rewrite (Hin Hc).
    + rewrite H in Hne. cbn [links] in Hne. destruct (Habs Hc) as [_ E].
      now contradiction Hne.
  - rewrite get_stats_reads in Hne. now contradiction Hne.
  - destruct (get_code_rows c now p) as [H|[H _]]; [now contradiction Hne | exact H].
Qed.

(** X4: a request sends the table few statements: a creation at most
    eleven (ten lookups and the insertion), a redirect at most two, the
    others one; and never more than one INSERT. *)
Theorem statements_per_request :
  forall (op : operation) (p : Pool),
    exists j,
      journal (snd (serve isUrl op p)) = (journal p ++ j)%list
      /\ (List.length (filter is_insert j) <= 1)%nat
      /\ match op with
         | Create _ _ _ => (List.length j <= 11)%nat
         | Visit _ _ => (List.length j <= 2)%nat
         | _ => List.length j = 1%nat
         end.
Proof.
  intros op p. destruct op as [req now rnd|search|c|req c|c now]; cbn [serve].
  - destruct (post_api_links_effect req now rnd p)
      as [[c [u [j [_ [_ [_ [_ [_ [Hlen [Hins H]]]]]]]]]]
         |[r [n [j [H [_ [_ [Hlen Hins]]]]]]]];
      rewrite H; cbn [snd journal].
    + exists (j ++ [InsertLink c u])%list. rewrite app_assoc. split; [reflexivity|].
      rewrite filter_app, !length_app. cbn.
      rewrite (filter_no_insert j Hins). cbn. lia.
    + exists j. auto.
  - destruct (get_api_links_reads search p) as [pat H]. rewrite H.
    exists [SelectLinks pat]. cbn. repeat split; lia.
  - exists [DeleteLink c].
    destruct (delete_api_links_rows c p) as [[_ H]|[_ H]]; rewrite H; cbn;
      repeat split; lia.
  - rewrite get_stats_reads. exists [SelectLink c]. cbn. repeat split; lia.
  - destruct (get_code_journal c now p) as [j [H [Hlen Hins]]]. exists j.
    split; [exact H|]. rewrite (filter_no_insert j Hins). cbn. split; lia.
Qed.

Lemma append_assoc (a b c : string) : (a ++ b) ++ c = a ++ b ++ c.
Proof. induction a as [|x a IH]; simpl; [reflexivity | now rewrite IH]. Qed.

Lemma filter_fresh_row c (rows : list (Z * Link)) id l :
  ~ In c (map (fun r => code (snd r)) rows) ->
  code l = c ->
  filter (has_code c) (rows ++ [(id, l)]) = [(id, l)].
Proof.
  intros Habs Hc. rewrite filter_app, (filter_absent _ _ Habs). cbn [filter app].
  assert (has_code c (id, l) = true) as -> by now apply has_code_true.
  reflexivity.
Qed.

Lemma at_int_max_fresh_row c u now (rows : list (Z * Link)) id :
  ~ In c (map (fun r => code (snd r)) rows) ->
  existsb (at_int_max c) (rows ++ [(id, mkLink c u 0 None now)]) = false.
Proof.
  intros Habs. rewrite existsb_app, (at_int_max_absent _ _ Habs). cbn [existsb orb].
  unfold at_int_max. cbn [snd clicks].
  change (Pg.INT_MAX <=? 0) with false. now rewrite andb_false_r.
Qed.

(** An accepted request for a well-shaped code that the table does not
    hold is answered 201 and the link is stored, when the table takes the
    row: the url holds no NUL and the sequence is not at its end. *)
Lemma post_custom_fresh req now rnd p c :
  url_rejected isUrl (body_url req) = false ->
  body_code req = Some c ->
  Js.code_regex c = true ->
  ~ In c (codes p) ->
  Pg.text (Js.interpolate (body_url req)) = true ->
  links_id_seq p < Pg.INT_MAX ->
  exists u,
    body_url req = Some u
    /\ post_api_links isUrl req now rnd p
       = (mkResponse 201
            (JsonCreated c ((protocol req ++ "://" ++ Js.interpolate (host req))
                            ++ "/" ++ c) u 0),
          mkPool (links p ++ [(links_id_seq p + 1, mkLink c u 0 None now)])
                 (links_id_seq p + 1)
                 ((journal p ++ [SelectOne c]) ++ [InsertLink c u])).
Proof.
  intros Hu Hc Hre Habs Htu Hseq. destruct (url_accepted isUrl _ Hu) as [u [Eu _]].
  exists u. split; [exact Eu|]. rewrite Eu in Htu. cbn [Js.interpolate] in Htu.
  pose proof (code_regex_text c Hre) as Htc.
  unfold post_api_links, try_catch. rewrite Hu, Hc, Eu.
  cbn [Js.truthy_field Js.interpolate].
  rewrite (code_regex_truthy c Hre), Hre. cbn [negb]. unfold bind.
  rewrite (select_one_absent c p Htc Habs). cbn [Nat.ltb Nat.leb].
  rewrite store_and_answer_fresh;
    [reflexivity | exact Htc | exact Htu | now apply code_regex_length
     | exact Hseq | exact Habs].
Qed.

(** X5: a link just created is on the stats page of its code, with the url
    of the request, no click, and the short url the creation answered (the
    host being the same); and it is in the list of all links. *)
Theorem created_link_is_shown :
  forall (req : request) (now : Z) (rnd : nat -> nat) (p : Pool),
    status (fst (post_api_links isUrl req now rnd p)) = 201 ->
    exists c u fullUrl,
      fst (post_api_links isUrl req now rnd p)
      = mkResponse 201 (JsonCreated c fullUrl u 0)
      /\ fst (get_stats req c (snd (post_api_links isUrl req now rnd p)))
         = mkResponse 200 (ViewStats (mkLink c u 0 None now) fullUrl)
      /\ In (mkLink c u 0 None now)
            (listed None (snd (post_api_links isUrl req now rnd p))).
Proof.
  intros req now rnd p H201.
  destruct (post_api_links_effect req now rnd p)
    as [[c [u [j [_ [Habs [Htc [_ [_ [_ [_ H]]]]]]]]]]|[r [n [j [H [Hs _]]]]]];
    rewrite H in *; cbn [fst snd] in *; [|lia].
  exists c, u, ((protocol req ++ "://" ++ Js.interpolate (host req)) ++ "/" ++ c).
  split; [reflexivity|]. split.
  - unfold get_stats, try_catch, bind, select_link. rewrite Htc. cbn [negb links].
    rewrite (filter_fresh_row c (links p) (links_id_seq p + 1) (mkLink c u 0 None now)
               Habs eq_refl).
    cbn [map snd fst code json]. now rewrite !append_assoc.
  - unfold listed. rewrite get_api_links_all by reflexivity. cbn [fst content json links].
    eapply Permutation_in; [symmetry; apply order_by_perm|].
    rewrite map_app. apply in_or_app. right. now left.
Qed.

(** X6: a link just created under a code that is not a reserved word is
    followed at once: the redirect answers 302 to the url of the request
    and the new row has one click, dated by the redirect. *)
Theorem created_link_redirects :
  forall (req : request) (now : Z) (rnd : nat -> nat) (p : Pool),
    status (fst (post_api_links isUrl req now rnd p)) = 201 ->
    exists c u fullUrl,
      fst (post_api_links isUrl req now rnd p)
      = mkResponse 201 (JsonCreated c fullUrl u 0)
      /\ (reserved c = false ->
          forall t,
            fst (get_code c t (snd (post_api_links isUrl req now rnd p)))
            = mkResponse 302 (Location u)
            /\ links (snd (get_code c t (snd (post_api_links isUrl req now rnd p))))
               = (links p ++ [(links_id_seq p + 1, mkLink c u 1 (Some t) now)])%list).
Proof.
  intros req now rnd p H201.
  destruct (post_api_links_effect req now rnd p)
    as [[c [u [j [_ [Habs [Htc [_ [_ [_ [_ H]]]]]]]]]]|[r [n [j [H [Hs _]]]]]];
    rewrite H in *; cbn [fst snd] in *; [|lia].
  exists c, u, ((protocol req ++ "://" ++ Js.interpolate (host req)) ++ "/" ++ c).
  split; [reflexivity|]. intros Hr t.
  unfold get_code, try_catch. unfold reserved in Hr. rewrite Hr.
  unfold bind, select_url, update_clicks, received, ret. rewrite Htc.
  cbn [negb links journal links_id_seq].
  rewrite (filter_fresh_row c (links p) (links_id_seq p + 1) (mkLink c u 0 None now)
               Habs eq_refl).
  cbn [map firstn snd url fst links].
  rewrite (at_int_max_fresh_row c u now (links p) (links_id_seq p + 1) Habs).
  cbn [fst snd links]. split; [reflexivity|].
  rewrite map_app, (map_click_absent c t _ Habs). cbn [map].
  assert (has_code c (links_id_seq p + 1, mkLink c u 0 None now) = true) as ->
      by now apply has_code_true.
  reflexivity.
Qed.

(** X7: of the three reserved words only health has the shape of a code.
    A request for the custom code health is created like any other when the
    table takes the row (the url without NUL, the sequence not at its end):
    201, the row is stored; and the redirect of the stored link is then
    answered 404 with the table left as it is: the link cannot be
    followed. *)
Theorem health_can_be_stored_not_followed :
  (forall c, reserved c = true -> Js.code_regex c = true -> c = "health")
  /\ forall (req : request) (now : Z) (rnd : nat -> nat) (p : Pool),
      url_rejected isUrl (body_url req) = false ->
      body_code req = Some "health" ->
      ~ In "health" (codes p) ->
      Pg.text (Js.interpolate (body_url req)) = true ->
      links_id_seq p < Pg.INT_MAX ->
      status (fst (post_api_links isUrl req now rnd p)) = 201
      /\ In "health" (codes (snd (post_api_links isUrl req now rnd p)))
      /\ forall t,
          get_code "health" t (snd (post_api_links isUrl req now rnd p))
          = (mkResponse 404 (Text "Not found"),
             snd (post_api_links isUrl req now rnd p)).
Proof.
  split.
  - intros c Hr Hre. unfold reserved in Hr.
    apply orb_true_iff in Hr. destruct Hr as [Hr|Hr]; [|now apply String.eqb_eq in Hr].
    apply orb_true_iff in Hr.
    destruct Hr as [Hr|Hr]; apply String.eqb_eq in Hr; subst c; discriminate Hre.
  - intros req now rnd p Hu Hc Habs Htu Hseq.
    destruct (post_custom_fresh req now rnd p "health" Hu Hc eq_refl Habs Htu Hseq)
      as [u [_ H]].
    rewrite H. cbn [fst snd status]. split; [reflexivity|]. split.
    + unfold codes. cbn [links]. rewrite map_app. apply in_or_app. right. now left.
    + intros t. now apply get_code_reserved.
Qed.

Lemma codes_after_delete c (rows : list (Z * Link)) :
  ~ In c (map (fun r => code (snd r)) (filter (fun r => negb (has_code c r)) rows)).
Proof.
  intros H. apply in_map_iff in H. destruct H as [r [E Hr]].
  apply filter_In in Hr. destruct Hr as [_ Hr]. apply negb_true_iff in Hr.
  apply has_code_false_iff in Hr. contradiction.
Qed.

Lemma filter_other_code c c' (rows : list (Z * Link)) :
  c' <> c ->
  filter (has_code c') (filter (fun r => negb (has_code c r)) rows)
  = filter (has_code c') rows.
Proof.
  intros Hne. induction rows as [|r rows IH]; [reflexivity|]. cbn [filter].
  destruct (has_code c r) eqn:E; cbn [negb filter].
  - apply has_code_true in E.
    assert (has_code c' r = false) as -> by (apply has_code_false_iff; congruence).
    exact IH.
  - now rewrite IH.
Qed.

(** X8: once a code without NUL is deleted, whether it was stored or not,
    no row has it: its redirect and a second deletion are answered 404; the
    rows of every other code are those of before. *)
Theorem deleted_code_is_gone :
  forall (c : string) (p : Pool),
    Pg.text c = true ->
    ~ In c (codes (snd (delete_api_links c p)))
    /\ (forall t, status (fst (get_code c t (snd (delete_api_links c p)))) = 404)
    /\ status (fst (delete_api_links c (snd (delete_api_links c p)))) = 404
    /\ (forall c', c' <> c ->
                   filter (has_code c') (links (snd (delete_api_links c p)))
                   = filter (has_code c') (links p)).
Proof.
  intros c p Ht. destruct (delete_api_links_effect c p Ht) as [H _]. rewrite H.
  assert (~ In c (codes (mkPool (filter (fun r => negb (has_code c r)) (links p))
                                (links_id_seq p) (journal p ++ [DeleteLink c]))))
    as Habs by apply codes_after_delete.
  split; [exact Habs|]. split; [|split].
  - intros t. destruct (reserved c) eqn:Hr.
    + now rewrite get_code_reserved.
    + now rewrite get_code_absent.
  - destruct (delete_api_links_effect c
                (mkPool (filter (fun r => negb (has_code c r)) (links p))
                        (links_id_seq p) (journal p ++ [DeleteLink c])) Ht)
      as [_ [_ H']].
    destruct (H' Habs) as [-> _]. reflexivity.
  - intros c' Hne. cbn [links]. now apply filter_other_code.
Qed.

(** X9: a deleted code is free again: an accepted request for it as a
    custom code, when the table takes the row (the url without NUL, the
    sequence not at its end), is answered 201 and stores, as the only row
    of the code, a link with no click whatever the clicks of the deleted
    one were. *)
Theorem deleted_code_can_be_taken_again :
  forall (req : request) (now : Z) (rnd : nat -> nat) (c : string) (p : Pool),
    url_rejected isUrl (body_url req) = false ->
    body_code req = Some c ->
    Js.code_regex c = true ->
    Pg.text (Js.interpolate (body_url req)) = true ->
    links_id_seq p < Pg.INT_MAX ->
    exists u,
      body_url req = Some u
      /\ status (fst (post_api_links isUrl req now rnd (snd (delete_api_links c p))))
         = 201
      /\ filter (has_code c)
                (links (snd (post_api_links isUrl req now rnd
                               (snd (delete_api_links c p)))))
         = [(links_id_seq p + 1, mkLink c u 0 None now)].
Proof.
  intros req now rnd c p Hu Hc Hre Htu Hseq.
  destruct (delete_api_links_effect c p (code_regex_text c Hre)) as [H _]. rewrite H.
  assert (~ In c (codes (mkPool (filter (fun r => negb (has_code c r)) (links p))
                                (links_id_seq p) (journal p ++ [DeleteLink c]))))
    as Habs by apply codes_after_delete.
  destruct (post_custom_fresh req now rnd _ c Hu Hc Hre Habs Htu Hseq) as [u [Eu H']].
  exists u. split; [exact Eu|]. rewrite H'. cbn [fst snd status links links_id_seq].
  split; [reflexivity|]. now apply filter_fresh_row.
Qed.

Lemma row_of_id_unique (rows : list (Z * Link)) id l l' :
  NoDup (map fst rows) -> In (id, l) rows -> In (id, l') rows -> l = l'.
Proof.
  induction rows as [|[i0 l0] rows IH]; intros Hids Hl Hl'; [inversion Hl|].
  cbn [map fst] in Hids. inversion Hids as [|x xs Hx Hxs]; subst.
  destruct Hl as [E|Hl], Hl' as [E'|Hl'].
  - congruence.
  - injection E as -> ->. exfalso. apply Hx. apply in_map_iff. now exists (id, l').
  - injection E' as -> ->. exfalso. apply Hx. apply in_map_iff. now exists (id, l).
  - now apply IH.
Qed.

(** X10: no request rewrites the code, the url or the creation date of a
    link: a row found under the same id before and after any sequence of
    requests agrees on the three. *)
Theorem link_identity_is_kept :
  forall (ops : list operation) (p : Pool) (id : Z) (l l' : Link),
    consistent p ->
    In (id, l) (links p) ->
    In (id, l') (links (run isUrl ops p)) ->
    code l' = code l /\ url l' = url l /\ created_at l' = created_at l.
Proof.
  induction ops as [|op ops IH] using rev_ind; intros p id l l' Hc Hl Hl'.
  - cbn [run] in Hl'. destruct Hc as [_ Hids].
    now rewrite (row_of_id_unique _ _ _ _ Hids Hl Hl').
  - rewrite run_snoc in Hl'.
    pose proof (serve_touches isUrl op (run isUrl ops p)) as Ht.
    assert (id <= links_id_seq (run isUrl ops p)) as Hid.
    { destruct Hc as [Hrows _]. rewrite Forall_forall in Hrows.
      destruct (Hrows _ Hl) as [H1 _]. cbn [fst] in H1.
      pose proof (run_seq isUrl ops p). lia. }
    destruct Ht as [E S|c u now E S|c E S|c now E S]; rewrite E in Hl'.
    + now apply (IH p id l l').
    + apply in_app_or in Hl'. destruct Hl' as [Hl'|[E'|[]]].
      * now apply (IH p id l l').
      * injection E' as <- _. lia.
    + apply filter_In in Hl'. now apply (IH p id l l' Hc Hl).
    + apply in_click_map in Hl'. destruct Hl' as [l0 [Hin Hl0]].
      pose proof (IH p id l l0 Hc Hl Hin) as H0.
      destruct Hl0 as [->| ->]; cbn [click code url created_at]; exact H0.
Qed.

Lemma visits_cons c op ops : visits c (op :: ops) = visits c [op] + visits c ops.
Proof. destruct op; cbn [visits]; lia. Qed.

Lemma visits_nonneg c ops : 0 <= visits c ops.
Proof.
  induction ops as [|op ops IH]; cbn [visits]; [lia|].
  destruct op; try exact IH. destruct (String.eqb c0 c); lia.
Qed.

Lemma serve_row op p c id l :
  NoDup (codes p) ->
  In (id, l) (links p) ->
  code l = c ->
  reserved c = false ->
  Pg.text c = true ->
  deletes c op = false ->
  clicks l + visits c [op] <= Pg.INT_MAX ->
  exists l',
    In (id, l') (links (snd (serve isUrl op p)))
    /\ code l' = c /\ url l' = url l
    /\ clicks l' = clicks l + visits c [op].
Proof.
  intros Hnd Hl Hc Hr Ht Hd Hle.
  assert (forall p' k, links p' = links p -> k = 0 ->
            exists l', In (id, l') (links p') /\ code l' = c /\ url l' = url l
                       /\ clicks l' = clicks l + k) as Hsame.
  { intros p' k E ->. exists l. rewrite E. repeat split; (assumption || lia). }
  destruct op as [req now rnd|search|c'|req c'|c' now]; cbn [serve visits] in *.
  - destruct (post_api_links_effect req now rnd p)
      as [[cc [u [j [_ [_ [_ [_ [_ [_ [_ H]]]]]]]]]]|[r [n [j [H _]]]]]; rewrite H;
      [|now apply Hsame].
    cbn [snd links].
    exists l. split; [apply in_or_app; now left|]. repeat split; (assumption || lia).
  - destruct (get_api_links_reads search p) as [pat H].
    apply Hsame; [now rewrite H | reflexivity].
  - cbn [deletes] in Hd. apply String.eqb_neq in Hd.
    destruct (delete_api_links_rows c' p) as [[_ H]|[_ H]]; rewrite H;
      [|now apply Hsame].
    cbn [snd links].
    exists l. split; [|repeat split; (assumption || lia)].
    apply filter_In. split; [exact Hl|]. apply negb_true_iff.
    apply has_code_false_iff. cbn [snd]. congruence.
  - apply Hsame; [now rewrite get_stats_reads | reflexivity].
  - destruct (String.eqb c' c) eqn:Ecc.
    + apply String.eqb_eq in Ecc. subst c'.
      assert (In c (codes p)) as Hin
        by (apply in_map_iff; exists (id, l); split; [exact Hc | exact Hl]).
      assert (existsb (at_int_max c) (links p) = false) as Hmax.
      { destruct (in_split _ _ Hl) as [l1 [l2 E]]. unfold codes in Hnd.
        rewrite E in *. rewrite <- Hc.
        apply (at_int_max_unique l1 l2 (id, l) Hnd). cbn [snd]. lia. }
      destruct (get_code_stored c now p Hr Ht Hmax Hin) as [row [_ [_ H]]]. rewrite H.
      cbn [snd links]. exists (click now l). split.
      * apply in_map_iff. exists (id, l). split; [|exact Hl].
        assert (has_code c (id, l) = true) as -> by now apply has_code_true.
        reflexivity.
      * cbn [click code url clicks]. repeat split; (assumption || lia).
    + apply String.eqb_neq in Ecc.
      destruct (get_code_rows c' now p) as [H|[_ [_ [_ [_ [_ H]]]]]];
        [now apply Hsame|].
      rewrite H. exists l. split; [|repeat split; (assumption || lia)].
      apply in_map_iff. exists (id, l). split; [|exact Hl].
      assert (has_code c' (id, l) = false) as ->
          by (apply has_code_false_iff; cbn [snd]; congruence).
      reflexivity.
Qed.

(** X11: the clicks of a link count the redirects of its code, whatever
    other requests come in between: in a table with distinct codes, for a
    stored link whose code is neither a reserved word nor holds NUL, after
    any sequence of requests that does not delete the code and keeps the
    clicks within INT, the row is still there under its id, with its url,
    and its clicks have grown by the number of redirects of the code in the
    sequence. *)
Theorem clicks_count_redirects :
  forall (ops : list operation) (p : Pool) (c : string) (id : Z) (l : Link),
    NoDup (codes p) ->
    In (id, l) (links p) ->
    code l = c ->
    reserved c = false ->
    Pg.text c = true ->
    existsb (deletes c) ops = false ->
    clicks l + visits c ops <= Pg.INT_MAX ->
    exists l',
      In (id, l') (links (run isUrl ops p))
      /\ url l' = url l
      /\ clicks l' = clicks l + visits c ops.
Proof.
  induction ops as [|op ops IH]; intros p c id l Hnd Hl Hc Hr Ht Hd Hle.
  - exists l. cbn. repeat split; (assumption || lia).
  - cbn [existsb] in Hd. apply orb_false_iff in Hd. destruct Hd as [Hd Hds].
    rewrite visits_cons in Hle. pose proof (visits_nonneg c ops) as H0.
    pose proof (visits_nonneg c [op]) as H1.
    destruct (serve_row op p c id l Hnd Hl Hc Hr Ht Hd ltac:(lia))
      as [l1 [Hl1 [Hc1 [Hu1 Hk1]]]].
    destruct (IH (snd (serve isUrl op p)) c id l1 (serve_unique op p Hnd)
                 Hl1 Hc1 Hr Ht Hds ltac:(lia))
      as [l' [Hl' [Hu' Hk']]].
    exists l'. cbn [run]. split; [exact Hl'|]. split; [congruence|].
    rewrite visits_cons. lia.
Qed.

End Service.

(* ================================================================= *)
(** ** More on searching                                               *)
(* ================================================================= *)

Lemma matches_any_seq_skip ts t :
  Like.matches ts t = true -> Like.matches (Like.AnySeq :: ts) t = true.
Proof. intros H. rewrite matches_any_seq, H. reflexivity. Qed.

Lemma matches_any_seq_later ts a :
  forall t,
    Like.matches (Like.AnySeq :: ts) t = true ->
    Like.matches (Like.AnySeq :: ts) (a ++ t) = true.
Proof.
  induction a as [|c a IH]; intros t H; [exact H|].
  change (String c a ++ t) with (String c (a ++ t)).
  rewrite matches_any_seq, (IH t H). apply orb_true_r.
Qed.

Lemma lower_char_unescaped c :
  Ascii.eqb c Like.backslash = false ->
  Ascii.eqb (Like.lower_char c) Like.backslash = false.
Proof.
  destruct c as [[] [] [] [] [] [] [] []]; vm_compute; intros H;
    first [reflexivity | discriminate H].
Qed.

Lemma lower_unescaped s : unescaped s = true -> unescaped (Like.lower s) = true.
Proof.
  unfold unescaped. induction s as [|c s IH]; simpl; [reflexivity|].
  intros H. apply andb_true_iff in H. destruct H as [Hc Hs].
  apply negb_true_iff in Hc. now rewrite (lower_char_unescaped c Hc), IH.
Qed.

(** Read as a pattern, a string without escape matches itself. *)
Lemma matches_itself s :
  unescaped s = true ->
  forall rest b,
    Like.matches (Like.tokens rest) b = true ->
    Like.matches (Like.tokens (s ++ rest)) (s ++ b) = true.
Proof.
  unfold unescaped. induction s as [|c s IH]; intros H rest b Hb; [exact Hb|].
  simpl in H. apply andb_true_iff in H. destruct H as [Hc Hs].
  apply negb_true_iff in Hc. specialize (IH Hs rest b Hb).
  change (String c s ++ rest) with (String c (s ++ rest)).
  change (String c s ++ b) with (String c (s ++ b)).
  cbn [Like.tokens]. rewrite Hc.
  destruct (Ascii.eqb c Like.percent).
  - rewrite matches_any_seq. rewrite (matches_any_seq_skip _ _ IH). apply orb_true_r.
  - destruct (Ascii.eqb c Like.underscore); cbn [Like.matches]; [exact IH|].
    now rewrite Ascii.eqb_refl.
Qed.

Lemma ilike_holds s text :
  unescaped s = true ->
  includes_ci s text = true ->
  Like.ilike text ("%" ++ s ++ "%") = true.
Proof.
  intros Hs Hin. unfold Like.ilike, includes_ci in *.
  apply includes_spec in Hin. destruct Hin as [a [b Hab]]. rewrite Hab.
  rewrite !lower_append. change (Like.lower "%") with "%".
  change ("%" ++ Like.lower s ++ "%") with (String Like.percent (Like.lower s ++ "%")).
  cbn [Like.tokens]. change (Ascii.eqb Like.percent Like.backslash) with false.
  change (Ascii.eqb Like.percent Like.percent) with true. cbv iota.
  apply matches_any_seq_later, matches_any_seq_skip.
  apply matches_itself; [now apply lower_unescaped|].
  change (Like.tokens "%") with [Like.AnySeq]. apply matches_rest.
Qed.

Lemma text_append a b : Pg.text (a ++ b) = Pg.text a && Pg.text b.
Proof. unfold Pg.text. apply all_chars_append. Qed.

(** What a text without NUL holds has no NUL. *)
Lemma includes_ci_text s text :
  includes_ci s text = true -> Pg.text text = true -> Pg.text s = true.
Proof.
  unfold includes_ci. intros H Ht. apply includes_spec in H.
  destruct H as [a [b E]]. rewrite <- text_lower in Ht. rewrite E in Ht.
  rewrite !text_append in Ht. apply andb_true_iff in Ht. destruct Ht as [_ Ht].
  apply andb_true_iff in Ht. destruct Ht as [Ht _]. now rewrite text_lower in Ht.
Qed.

(** X12: over a table PostgreSQL can hold (no NUL in a code or url), a
    search string without backslash finds every link that holds it: the
    wildcards [%] and [_] can only add links to the answer. *)
Theorem search_finds_every_literal_match :
  forall (s : string) (p : Pool) (l : Link),
    s <> "" ->
    unescaped s = true ->
    storable p ->
    In l (stored p) ->
    holding s l = true ->
    In l (listed (Some s) p).
Proof.
  intros s p l Hne Hs Hp Hl Hh.
  unfold storable in Hp. rewrite Forall_forall in Hp. destruct (Hp l Hl) as [Hc Hu].
  assert (Pg.text s = true) as Ht.
  { unfold holding in Hh. apply orb_true_iff in Hh.
    destruct Hh as [Hh|Hh]; eapply includes_ci_text; eassumption. }
  unfold listed. rewrite (get_api_links_search s p Hne Ht).
  cbn [fst content json].
  eapply Permutation_in; [symmetry; apply order_by_perm|].
  apply filter_In. split; [exact Hl|].
  unfold holding in Hh. apply orb_true_iff in Hh. apply orb_true_iff.
  destruct Hh as [Hh|Hh]; [left | right]; now apply ilike_holds.
Qed.

(** X13: a non-empty search fails in one case only, the character NUL in
    the search string: then the answer is 500 and no link is listed.
    Otherwise, wildcards and backslashes included, the pattern sent to the
    table never ends in a dangling escape, the answer is 200, and the
    links listed are stored links, newest first.  The rows are left as they
    are in both cases. *)
Theorem search_is_refused_for_nul_only :
  forall (s : string) (p : Pool),
    s <> "" ->
    (Pg.text s = true ->
     fst (get_api_links (Some s) p) = mkResponse 200 (JsonLinks (listed (Some s) p))
     /\ StronglySorted newest_first (listed (Some s) p)
     /\ incl (listed (Some s) p) (stored p))
    /\ (Pg.text s = false ->
        fst (get_api_links (Some s) p) = mkResponse 500 (JsonError "Server error")
        /\ listed (Some s) p = [])
    /\ links (snd (get_api_links (Some s) p)) = links p.
Proof.
  intros s p Hne. split; [|split].
  - intros Ht. unfold listed. rewrite (get_api_links_search s p Hne Ht).
    cbn [fst snd content json].
    split; [reflexivity|]. split; [apply order_by_sorted|].
    intros l Hl. apply (Permutation_in _ (order_by_perm _)) in Hl.
    now apply filter_In in Hl.
  - intros Ht. unfold listed. rewrite (get_api_links_refused s p Ht).
    split; reflexivity.
  - destruct (get_api_links_reads (Some s) p) as [pat H]. now rewrite H.
Qed.

Lemma lower_empty s : Like.lower s = "" -> s = "".
Proof. destruct s; [reflexivity | discriminate]. Qed.

(** X14: the case of the search string does not matter: two strings that
    differ only in the case of their letters get the same answer. *)
Theorem search_ignores_case :
  forall (s s' : string) (p : Pool),
    Like.lower s = Like.lower s' ->
    fst (get_api_links (Some s) p) = fst (get_api_links (Some s') p).
Proof.
  intros s s' p H.
  destruct (string_dec s "") as [->|Hne].
  - symmetry in H. apply lower_empty in H. now subst s'.
  - assert (s' <> "") as Hne'.
    { intros ->. apply Hne. now apply lower_empty. }
    assert (Pg.text s = Pg.text s') as Ht
      by (rewrite <- (text_lower s), <- (text_lower s'); now rewrite H).
    destruct (Pg.text s') eqn:Et.
    + rewrite (get_api_links_search s p Hne Ht), (get_api_links_search s' p Hne' Et).
      cbn [fst]. do 3 f_equal. apply filter_ext. intros l.
      unfold Like.ilike. rewrite !lower_append, H. reflexivity.
    + now rewrite (get_api_links_refused s p Ht), (get_api_links_refused s' p Et).
Qed.

(* ================================================================= *)
(** ** More on generateCode                                            *)
(* ================================================================= *)

Lemma generateCode_loop_window rnd rnd' len :
  forall k acc,
    (forall i, (k <= i < k + len)%nat -> (rnd i < 62)%nat) ->
    (forall i, (k <= i < k + len)%nat -> rnd' i = rnd i) ->
    String.length (generateCode_loop rnd len k acc) = (String.length acc + len)%nat
    /\ Js.all_chars Js.alnum (generateCode_loop rnd len k acc)
       = Js.all_chars Js.alnum acc
    /\ generateCode_loop rnd' len k acc = generateCode_loop rnd len k acc.
Proof.
  induction len as [|len IH]; intros k acc Hr He; cbn [generateCode_loop].
  - repeat split; lia.
  - assert (rnd k < 62)%nat as Hk by (apply Hr; lia).
    assert (rnd' k = rnd k) as Ek by (apply He; lia).
    destruct (IH (S k) (acc ++ chars_at (rnd k))) as [H1 [H2 H3]];
      [intros i Hi; apply Hr; lia | intros i Hi; apply He; lia|].
    destruct (chars_at_alnum (rnd k) Hk) as [L A].
    rewrite Ek, H1, H2, H3, length_append, all_chars_append, L, A, andb_true_r.
    repeat split; lia.
Qed.

(** X15: for every length, the code generated from draws that are indices
    of the alphabet has that length and holds only characters of
    [[A-Za-z0-9]]; it depends on the draws of its own calls only. *)
Theorem generateCode_shape :
  forall (rnd : nat -> nat) (len k : nat),
    (forall i, (k <= i < k + len)%nat -> (rnd i < 62)%nat) ->
    String.length (generateCode rnd len k) = len
    /\ Js.all_chars Js.alnum (generateCode rnd len k) = true
    /\ forall rnd',
        (forall i, (k <= i < k + len)%nat -> rnd' i = rnd i) ->
        generateCode rnd' len k = generateCode rnd len k.
Proof.
  intros rnd len k Hr. unfold generateCode. split; [|split].
  - destruct (generateCode_loop_window rnd rnd len k "" Hr) as [H _]; auto.
  - destruct (generateCode_loop_window rnd rnd len k "" Hr) as [_ [H _]]; auto.
  - intros rnd' He.
    now destruct (generateCode_loop_window rnd rnd' len k "" Hr He) as [_ [_ H]].
Qed.

Lemma index_in_chars c :
  Js.alnum c = true ->
  (index_in c chars < 62)%nat /\ chars_at (index_in c chars) = String c "".
Proof.
  destruct c as [[] [] [] [] [] [] [] []]; vm_compute; intros H;
    first [discriminate H | split; [lia | reflexivity]].
Qed.

Lemma get_after (pre : string) c w :
  String.get (String.length pre) (pre ++ String c w) = Some c.
Proof. induction pre as [|x pre IH]; [reflexivity | exact IH]. Qed.

Lemma get_in_alnum w :
  Js.all_chars Js.alnum w = true ->
  forall i c, String.get i w = Some c -> Js.alnum c = true.
Proof.
  induction w as [|x w IH]; intros H i c Hg; [destruct i; discriminate|].
  simpl in H. apply andb_true_iff in H. destruct H as [Hx Hw].
  destruct i as [|i]; simpl in Hg; [congruence | now apply (IH Hw i)].
Qed.

Lemma generateCode_loop_spelling k0 w :
  forall pre acc,
    Js.all_chars Js.alnum w = true ->
    generateCode_loop (spelling (pre ++ w) k0) (String.length w)
                      (k0 + String.length pre) acc
    = acc ++ w.
Proof.
  induction w as [|c w IH]; intros pre acc H; cbn [String.length generateCode_loop].
  - clear. induction acc as [|x acc IH]; simpl; [reflexivity | now f_equal].
  - simpl in H. apply andb_true_iff in H. destruct H as [Hc Hw].
    unfold spelling at 2.
    replace (k0 + String.length pre - k0)%nat with (String.length pre) by lia.
    rewrite get_after. destruct (index_in_chars c Hc) as [_ ->].
    specialize (IH (pre ++ String c "") (acc ++ String c "") Hw).
    rewrite length_append in IH. cbn [String.length] in IH.
    replace (k0 + (String.length pre + 1))%nat with (S (k0 + String.length pre))
      in IH by lia.
    rewrite !append_assoc in IH. exact IH.
Qed.

(** X16: every string of characters of [[A-Za-z0-9]] is a code the
    generator can give: some draws, all indices of the alphabet, spell it.
    So each six-character custom code is also a possible candidate of the
    creation loop. *)
Theorem generateCode_reaches_every_code :
  forall (w : string) (k : nat),
    Js.all_chars Js.alnum w = true ->
    (forall i, (spelling w k i < 62)%nat)
    /\ generateCode (spelling w k) (String.length w) k = w
    /\ (String.length w = 6%nat -> candidate (spelling w 0) 0 = w).
Proof.
  intros w k H. split; [|split].
  - intros i. unfold spelling.
    destruct (String.get (i - k) w) as [c|] eqn:E; [|lia].
    now destruct (index_in_chars c (get_in_alnum w H _ _ E)).
  - unfold generateCode.
    pose proof (generateCode_loop_spelling k w "" "" H) as E.
    cbn [append String.length] in E. now rewrite Nat.add_0_r in E.
  - intros Hlen. unfold candidate, generateCode, default_len. rewrite <- Hlen.
    pose proof (generateCode_loop_spelling 0 w "" "" H) as E.
    cbn [append String.length] in E. exact E.
Qed.

(* ================================================================= *)
(** ** The health check                                                *)
(* ================================================================= *)

(** X17: when the clock has not gone back since the start, the uptime of
    the health report reads [h]h [m]m [s]s with minutes and seconds below
    60 and [3600 h + 60 m + s] the whole seconds elapsed; the status is 200
    and the environment label is never empty. *)
Theorem health_uptime_parts :
  forall (startTime now : Z) (iso : string) (NODE_ENV : option string),
    startTime <= now ->
    exists h m s,
      0 <= h /\ 0 <= m < 60 /\ 0 <= s < 60
      /\ 3600 * h + 60 * m + s = (now - startTime) / 1000
      /\ Health.uptime (snd (Health.get_health startTime now iso NODE_ENV))
         = Health.decimal h ++ "h " ++ Health.decimal m ++ "m "
           ++ Health.decimal s ++ "s"
      /\ fst (Health.get_health startTime now iso NODE_ENV) = 200
      /\ Health.environment (snd (Health.get_health startTime now iso NODE_ENV)) <> "".
Proof.
  intros startTime now iso env Hle.
  set (u := (now - startTime) / 1000).
  assert (0 <= u) as Hu by (apply Z.div_pos; lia).
  exists (u / 3600), (Z.rem u 3600 / 60), (Z.rem u 60).
  assert (Z.rem u 3600 = u mod 3600) as E1 by (apply Z.rem_mod_nonneg; lia).
  assert (Z.rem u 60 = u mod 60) as E2 by (apply Z.rem_mod_nonneg; lia).
  split; [apply Z.div_pos; lia|].
  split; [rewrite E1; Z.div_mod_to_equations; lia|].
  split; [rewrite E2; Z.div_mod_to_equations; lia|].
  split; [rewrite E1, E2; Z.div_mod_to_equations; lia|].
  split; [reflexivity|]. split; [reflexivity|].
  cbn [Health.get_health snd Health.environment].
  destruct env as [e|]; cbn [Js.truthy_field Js.interpolate]; [|discriminate].
  unfold Js.truthy. destruct (String.eqb e "") eqn:E; cbn [negb]; [discriminate|].
  now apply String.eqb_neq.
Qed.

(* ================================================================= *)
(** ** These theorems at work                                          *)
(* ================================================================= *)

Lemma clicked_links_consistent : consistent clicked_links.
Proof.
  split.
  - repeat constructor; cbn; try lia; intros H; discriminate H.
  - cbn. repeat (constructor; [cbn; intuition lia|]). constructor.
Qed.

Lemma sample_traffic_in_range : Forall draws_in_range sample_traffic.
Proof.
  unfold sample_traffic.
  repeat (apply Forall_cons; [first [exact I | exact sample_rnd_in_range]|]).
  apply Forall_nil.
Qed.

Lemma codes_stay_unique_witness :
  NoDup (codes (run sample_isUrl sample_traffic clicked_links)).
Proof.
  apply (codes_stay_unique sample_isUrl sample_traffic clicked_links).
  distinct_codes.
Defined.

Lemma stored_codes_well_formed_witness :
  Forall (fun c => Js.code_regex c = true)
         (codes (run sample_isUrl sample_traffic health_links))
  /\ ~ In "api" (codes (run sample_isUrl sample_traffic health_links)).
Proof.
  destruct (stored_codes_well_formed sample_isUrl sample_traffic health_links
              sample_traffic_in_range) as [A [B _]].
  - repeat constructor.
  - split; [exact A | exact B].
Defined.

Lemma rows_change_only_on_success_witness :
  status (fst (get_code "gitlink" 100 example_links)) = 302.
Proof.
  apply (rows_change_only_on_success sample_isUrl (Visit "gitlink" 100) example_links).
  vm_compute. intros H. discriminate H.
Defined.

Lemma created_link_is_shown_witness :
  exists c u fullUrl,
    fst (post_api_links sample_isUrl (sample_request (Some "https://z.com") None)
           120 sample_rnd example_links)
    = mkResponse 201 (JsonCreated c fullUrl u 0)
    /\ fst (get_stats (sample_request (Some "https://z.com") None) c
              (snd (post_api_links sample_isUrl
                      (sample_request (Some "https://z.com") None)
                      120 sample_rnd example_links)))
       = mkResponse 200 (ViewStats (mkLink c u 0 None 120) fullUrl)
    /\ In (mkLink c u 0 None 120)
          (listed None (snd (post_api_links sample_isUrl
                               (sample_request (Some "https://z.com") None)
                               120 sample_rnd example_links))).
Proof.
  exact (created_link_is_shown sample_isUrl
           (sample_request (Some "https://z.com") None) 120 sample_rnd
           example_links eq_refl).
Defined.

Lemma created_link_redirects_witness :
  exists c u fullUrl,
    fst (post_api_links sample_isUrl
           (sample_request (Some "https://z.com") (Some "abc123"))
           120 sample_rnd example_links)
    = mkResponse 201 (JsonCreated c fullUrl u 0)
    /\ (reserved c = false ->
        forall t,
          fst (get_code c t
                 (snd (post_api_links sample_isUrl
                         (sample_request (Some "https://z.com") (Some "abc123"))
                         120 sample_rnd example_links)))
          = mkResponse 302 (Location u)
          /\ links (snd (get_code c t
                           (snd (post_api_links sample_isUrl
                                   (sample_request (Some "https://z.com")
                                                   (Some "abc123"))
                                   120 sample_rnd example_links))))
             = (links example_links ++ [(3, mkLink c u 1 (Some t) 120)])%list).
Proof.
  exact (created_link_redirects sample_isUrl
           (sample_request (Some "https://z.com") (Some "abc123")) 120 sample_rnd
           example_links eq_refl).
Defined.

Lemma health_can_be_stored_not_followed_witness :
  status (fst (post_api_links sample_isUrl
                 (sample_request (Some "https://z.com") (Some "health"))
                 120 sample_rnd example_links)) = 201
  /\ status (fst (get_code "health" 130
                    (snd (post_api_links sample_isUrl
                            (sample_request (Some "https://z.com") (Some "health"))
                            120 sample_rnd example_links)))) = 404.
Proof.
  destruct (health_can_be_stored_not_followed sample_isUrl) as [_ H].
  assert (~ In "health" (codes example_links)) as Habs
    by (cbn; intuition discriminate).
  destruct (H (sample_request (Some "https://z.com") (Some "health")) 120 sample_rnd
              example_links eq_refl eq_refl Habs eq_refl eq_refl) as [A [_ B]].
  split; [exact A|]. now rewrite (B 130).
Defined.

Lemma deleted_code_is_gone_witness :
  status (fst (get_code "gitlink" 100 (snd (delete_api_links "gitlink" clicked_links))))
  = 404
  /\ filter (has_code "other") (links (snd (delete_api_links "gitlink" clicked_links)))
     = filter (has_code "other") (links clicked_links).
Proof.
  destruct (deleted_code_is_gone "gitlink" clicked_links eq_refl) as [_ [A [_ B]]].
  split; [exact (A 100)|]. apply B. discriminate.
Defined.

Lemma deleted_code_can_be_taken_again_witness :
  exists u,
    Some "https://z.com" = Some u
    /\ status (fst (post_api_links sample_isUrl
                      (sample_request (Some "https://z.com") (Some "gitlink"))
                      120 sample_rnd
                      (snd (delete_api_links "gitlink" clicked_links)))) = 201
    /\ filter (has_code "gitlink")
              (links (snd (post_api_links sample_isUrl
                             (sample_request (Some "https://z.com") (Some "gitlink"))
                             120 sample_rnd
                             (snd (delete_api_links "gitlink" clicked_links)))))
       = [(3, mkLink "gitlink" u 0 None 120)].
Proof.
  exact (deleted_code_can_be_taken_again sample_isUrl
           (sample_request (Some "https://z.com") (Some "gitlink")) 120 sample_rnd
           "gitlink" clicked_links eq_refl eq_refl eq_refl eq_refl eq_refl).
Defined.

Lemma link_identity_is_kept_witness :
  In (1, mkLink "gitlink" "https://x.com" 7 (Some 130) 10)
     (links (run sample_isUrl sample_traffic clicked_links))
  /\ code (mkLink "gitlink" "https://x.com" 7 (Some 130) 10) = "gitlink"
  /\ created_at (mkLink "gitlink" "https://x.com" 7 (Some 130) 10) = 10.
Proof.
  assert (In (1, mkLink "gitlink" "https://x.com" 7 (Some 130) 10)
             (links (run sample_isUrl sample_traffic clicked_links))) as H
    by (vm_compute; tauto).
  assert (In (1, mkLink "gitlink" "https://x.com" 5 (Some 90) 10)
             (links clicked_links)) as H0 by (cbn; tauto).
  destruct (link_identity_is_kept sample_isUrl sample_traffic clicked_links 1 _ _
              clicked_links_consistent H0 H) as [A [_ B]].
  split; [exact H | split; [exact A | exact B]].
Defined.

Lemma clicks_count_redirects_witness :
  exists l',
    In (1, l') (links (run sample_isUrl sample_traffic clicked_links))
    /\ url l' = "https://x.com"
    /\ clicks l' = 7.
Proof.
  assert (In (1, mkLink "gitlink" "https://x.com" 5 (Some 90) 10)
             (links clicked_links)) as H0 by (cbn; tauto).
  assert (NoDup (codes clicked_links)) as Hnd by distinct_codes.
  exact (clicks_count_redirects sample_isUrl sample_traffic clicked_links "gitlink" 1
           (mkLink "gitlink" "https://x.com" 5 (Some 90) 10)
           Hnd H0 eq_refl eq_refl eq_refl eq_refl ltac:(vm_compute; discriminate)).
Defined.

Lemma search_finds_every_literal_match_witness :
  In (mkLink "other" "https://y.com" 0 None 20) (listed (Some "S:/") example_links).
Proof.
  apply (search_finds_every_literal_match "S:/" example_links);
    [discriminate | reflexivity | repeat constructor | cbn; tauto | reflexivity].
Defined.

Lemma search_is_refused_for_nul_only_witness :
  fst (get_api_links (Some "%\") example_links)
  = mkResponse 200 (JsonLinks (listed (Some "%\") example_links))
  /\ StronglySorted newest_first (listed (Some "%\") example_links)
  /\ fst (get_api_links (Some nul_code) example_links)
     = mkResponse 500 (JsonError "Server error").
Proof.
  assert ("%\" <> "") as Hne by discriminate.
  destruct (search_is_refused_for_nul_only "%\" example_links Hne) as [A _].
  destruct (A eq_refl) as [A1 [A2 _]].
  assert (nul_code <> "") as Hne' by discriminate.
  destruct (search_is_refused_for_nul_only nul_code example_links Hne') as [_ [B _]].
  destruct (B eq_refl) as [B1 _].
  split; [exact A1 | split; [exact A2 | exact B1]].
Defined.

Lemma search_ignores_case_witness :
  fst (get_api_links (Some "GitL_nk") example_links)
  = fst (get_api_links (Some "gitl_nk") example_links).
Proof.
  exact (search_ignores_case "GitL_nk" "gitl_nk" example_links eq_refl).
Defined.

Lemma generateCode_shape_witness :
  String.length (generateCode sample_rnd 8 12) = 8%nat
  /\ Js.all_chars Js.alnum (generateCode sample_rnd 8 12) = true.
Proof.
  destruct (generateCode_shape sample_rnd 8 12) as [A [B _]].
  - intros i _. apply sample_rnd_in_range.
  - split; [exact A | exact B].
Defined.

Lemma generateCode_reaches_every_code_witness :
  generateCode (spelling "abc123" 0) 6 0 = "abc123"
  /\ candidate (spelling "abc123" 0) 0 = "abc123".
Proof.
  destruct (generateCode_reaches_every_code "abc123" 0 eq_refl) as [_ [A B]].
  split; [exact A | exact (B eq_refl)].
Defined.

Lemma health_uptime_parts_witness :
  exists h m s,
    0 <= h /\ 0 <= m < 60 /\ 0 <= s < 60
    /\ 3600 * h + 60 * m + s = 3725
    /\ Health.uptime (snd (Health.get_health 1000 3726999 "2025-01-01T00:00:00.000Z" None))
       = Health.decimal h ++ "h " ++ Health.decimal m ++ "m " ++ Health.decimal s ++ "s"
    /\ fst (Health.get_health 1000 3726999 "2025-01-01T00:00:00.000Z" None) = 200
    /\ Health.environment
         (snd (Health.get_health 1000 3726999 "2025-01-01T00:00:00.000Z" None)) <> "".
Proof.
  exact (health_uptime_parts 1000 3726999 "2025-01-01T00:00:00.000Z" None
           ltac:(lia)).
Defined.

(** The report of the example reads one hour, two minutes, five seconds. *)
Example health_uptime_example :
  Health.uptime (snd (Health.get_health 1000 3726999 "2025-01-01T00:00:00.000Z" None))
  = "1h 2m 5s".
Proof. vm_compute. reflexivity. Qed.

(* ================================================================= *)
(** ** Creation, deletion and the pages that read the table            *)
(* ================================================================= *)


Lemma listed_incl search p : incl (listed search p) (stored p).
Proof.
  intros l Hin. unfold listed in Hin.
  destruct (Js.truthy_field search) eqn:Et.
  - destruct search as [s|]; [|discriminate].
    assert (s <> "") as Hne by (intros ->; discriminate).
    destruct (Pg.text s) eqn:Ht.
    + rewrite (get_api_links_search s _ Hne Ht) in Hin. cbn [fst content json] in Hin.
      apply (Permutation_in _ (order_by_perm _)) in Hin.
      now apply filter_In in Hin.
    + rewrite (get_api_links_refused s _ Ht) in Hin. inversion Hin.
  - rewrite (get_api_links_all search _ Et) in Hin. cbn [fst content json] in Hin.
    now apply (Permutation_in _ (order_by_perm _)) in Hin.
Qed.

Section Pages.

Variable isUrl : string -> bool.




(** X19: the stats page shows the clicks: after the redirect of a stored
    link (codes distinct, the code neither a reserved word nor holding NUL,
    the clicks below the largest INT) the stats page of its code shows the
    link with one click more and the date of the redirect. *)
Theorem stats_show_the_clicks :
  forall (p : Pool) (l1 l2 : list (Z * Link)) (id : Z) (l : Link)
         (req : request) (t : Z),
    links p = (l1 ++ (id, l) :: l2)%list ->
    NoDup (codes p) ->
    reserved (code l) = false ->
    Pg.text (code l) = true ->
    clicks l < Pg.INT_MAX ->
    fst (get_stats req (code l) (snd (get_code (code l) t p)))
    = mkResponse 200
        (ViewStats (mkLink (code l) (url l) (clicks l + 1) (Some t) (created_at l))
                   (protocol req ++ "://" ++ Js.interpolate (host req) ++ "/" ++ code l)).
Proof.
  intros p l1 l2 id l req t Hl Hnd Hr Ht Hlt. destruct p as [rows n j].
  cbn [links] in Hl. subst rows. unfold codes in Hnd. cbn [links] in Hnd.
  rewrite (get_code_present t l1 l2 id l n j Hr Ht Hlt Hnd). cbn [snd].
  assert (NoDup (map (fun r => code (snd r)) (l1 ++ (id, click t l) :: l2))) as Hnd'.
  { rewrite map_app in *. exact Hnd. }
  destruct (filter_unique l1 l2 (id, click t l) Hnd') as [Hf _].
  cbn [snd click code] in Hf.
  unfold get_stats, try_catch, bind, select_link. rewrite Ht. cbn [negb links].
  rewrite Hf. reflexivity.
Qed.

(** X20: over a table PostgreSQL can hold, a deleted link is in no listing:
    whatever the search, every link answered after the deletion of a code
    was stored before it and has another code. *)
Theorem deleted_link_is_not_listed :
  forall (search : option string) (c : string) (p : Pool) (l : Link),
    storable p ->
    In l (listed search (snd (delete_api_links c p))) ->
    code l <> c /\ In l (stored p).
Proof.
  intros search c p l Hp Hin. apply listed_incl in Hin. unfold stored in *.
  destruct (delete_api_links_rows c p) as [[Ht H]|[Ht H]]; rewrite H in Hin;
    cbn [snd links received] in Hin.
  - apply in_map_iff in Hin. destruct Hin as [r [<- Hr]]. apply filter_In in Hr.
    destruct Hr as [Hr Hc]. apply negb_true_iff, has_code_false_iff in Hc.
    split; [exact Hc|]. apply in_map_iff. now exists r.
  - split; [|exact Hin]. unfold storable, stored in Hp. rewrite Forall_forall in Hp.
    destruct (Hp l Hin) as [Hc _]. intros E. rewrite E in Hc. congruence.
Qed.

Lemma serve_storable op p : storable p -> storable (snd (serve isUrl op p)).
Proof.
  intros Hp. unfold storable, stored in *.
  destruct op as [req now rnd|search|c|req c|c now]; cbn [serve].
  - destruct (post_api_links_effect isUrl req now rnd p)
      as [[c [u [j [_ [_ [Htc [Htu [_ [_ [_ H]]]]]]]]]]|[r [n [j [H _]]]]]; rewrite H;
      cbn [snd links]; [|exact Hp].
    rewrite map_app. apply Forall_app. split; [exact Hp|].
    constructor; [now split | constructor].
  - destruct (get_api_links_reads search p) as [pat H]. now rewrite H.
  - destruct (delete_api_links_rows c p) as [[_ H]|[_ H]]; rewrite H; [|exact Hp].
    cbn [links]. rewrite Forall_forall in *. intros l Hl. apply Hp.
    apply in_map_iff in Hl. destruct Hl as [r [E Hr]]. apply filter_In in Hr.
    apply in_map_iff. exists r. tauto.
  - now rewrite get_stats_reads.
  - destruct (get_code_rows c now p) as [H|[_ [_ [_ [_ [_ H]]]]]]; rewrite H;
      [exact Hp|].
    rewrite map_map. rewrite Forall_forall in *. intros l Hl.
    apply in_map_iff in Hl. destruct Hl as [r [E Hr]].
    assert (In (snd r) (map snd (links p))) as Hs by (apply in_map_iff; now exists r).
    destruct (Hp _ Hs) as [H1 H2].
    destruct (has_code c r); subst l; cbn [snd click code url]; now split.
Qed.

(** X21: the tables the service builds are tables PostgreSQL can hold:
    from a table without the character NUL in a code or url (the empty one
    is such a table) no sequence of requests stores a code or a url that
    holds NUL. *)
Theorem tables_stay_storable :
  forall (ops : list operation) (p : Pool),
    storable p -> storable (run isUrl ops p).
Proof.
  induction ops as [|op ops IH]; intros p H; cbn [run]; [exact H|].
  apply IH. now apply serve_storable.
Qed.

End Pages.

Lemma clicked_links_storable : storable clicked_links.
Proof. unfold storable. repeat constructor. Qed.


Lemma stats_show_the_clicks_witness :
  fst (get_stats (sample_request None None) "gitlink"
         (snd (get_code "gitlink" 100 clicked_links)))
  = mkResponse 200
      (ViewStats (mkLink "gitlink" "https://x.com" 6 (Some 100) 10)
                 "https://tiny.example/gitlink").
Proof.
  assert (NoDup (codes clicked_links)) as Hnd by distinct_codes.
  exact (stats_show_the_clicks clicked_links []
           [(2, mkLink "other" "https://y.com" 0 None 20)] 1
           (mkLink "gitlink" "https://x.com" 5 (Some 90) 10)
           (sample_request None None) 100 eq_refl Hnd eq_refl eq_refl eq_refl).
Defined.

Lemma deleted_link_is_not_listed_witness :
  code (mkLink "other" "https://y.com" 0 None 20) <> "gitlink"
  /\ In (mkLink "other" "https://y.com" 0 None 20) (stored clicked_links).
Proof.
  apply (deleted_link_is_not_listed (Some "HTTP") "gitlink" clicked_links).
  - exact clicked_links_storable.
  - vm_compute. tauto.
Defined.

Lemma tables_stay_storable_witness :
  storable (run sample_isUrl sample_traffic clicked_links).
Proof.
  apply (tables_stay_storable sample_isUrl sample_traffic clicked_links).
  exact clicked_links_storable.
Defined.
